(** * zaphttp: the request-logging middleware, its response observer and
      its logger propagation, embedded shallowly and verified.

    Sources embedded here:
    - [statusrecorder.go]  the observer [statusRecorder];
    - [ctx.go]             [injectLoggerInContext] and [FromContext];
    - [handler_options.go] the option aggregate and its defaults;
    - [handler.go]         [handleRequest] and [logRequest];
    - the formatter interfaces and the no-op formatter.

    Three libraries the package calls are represented by the part of their
    interface that the package uses: net/http (header maps and the
    ResponseWriter interface), zap (loggers, levels, checked entries) and
    OpenTelemetry (span contexts). *)

From Stdlib Require Import ZArith.
From stdpp Require Import gmap strings list.

Local Open Scope string_scope.
Local Open Scope list_scope.
Local Open Scope Z_scope.

(* ===================================================================== *)
(** ** net/http as the package sees it *)
(* ===================================================================== *)

Module http.

(** [http.Header] is [map[string][]string]. *)
Abbreviation Header := (gmap string (list string)).

(** [Header.Get]: the first value stored under the key, or the empty
    string.  The package only asks for "Content-Type", which is already in
    canonical MIME form, so canonicalisation is the identity on it. *)
Definition Header_Get (h : Header) (key : string) : string :=
  match h !! key with
  | Some (v :: _) => v
  | _ => ""
  end.

(** [Header.Set] replaces whatever was stored under the key. *)
Definition Header_Set (key value : string) (h : Header) : Header :=
  <[key := [value]]> h.

(** [Header.Del]. *)
Definition Header_Del (key : string) (h : Header) : Header :=
  delete key h.

Definition StatusOK : Z := 200.

(** The result pair [(int, error)] of a body write; [None] is the nil
    error. *)
Abbreviation WriteResult := (Z * option string)%type.

(** The [http.ResponseWriter] interface.  A writer is a state of type [W].
    [Header()] hands out the writer's own map, which callers mutate in
    place; [rw_StoreHeader] is the writer after such a mutation left the map
    with the given contents.  Go's [int] status code is a [Z]; the package
    only compares and copies it. *)
Class ResponseWriter (W : Type) := {
  rw_Header : W -> Header;
  rw_StoreHeader : Header -> W -> W;
  rw_Write : list Byte.byte -> W -> W * WriteResult;
  rw_WriteHeader : Z -> W -> W
}.

End http.
Export http.

(* ===================================================================== *)
(** ** statusrecorder.go *)
(* ===================================================================== *)

Section StatusRecorder.
Context {W : Type} `{ResponseWriter W}.

Record statusRecorder := {
  writer : W;
  writeHeaderCalled : bool;
  StatusCode : Z;
  ContentType : string
}.

(** [&statusRecorder{writer: w}]: every other field has its zero value. *)
Definition newStatusRecorder (w : W) : statusRecorder :=
  {| writer := w; writeHeaderCalled := false;
     StatusCode := 0; ContentType := "" |}.

Definition Header (s : statusRecorder) : http.Header :=
  rw_Header (writer s).

(** The map [Header] returns is the underlying writer's, so a mutation
    through it lands in the underlying writer and nowhere else. *)
Definition StoreHeader (h : http.Header) (s : statusRecorder) : statusRecorder :=
  {| writer := rw_StoreHeader h (writer s);
     writeHeaderCalled := writeHeaderCalled s;
     StatusCode := StatusCode s;
     ContentType := ContentType s |}.

(** The content type is read from the underlying map before the call is
    forwarded. *)
Definition WriteHeader (statusCode : Z) (s : statusRecorder) : statusRecorder :=
  {| writer := rw_WriteHeader statusCode (writer s);
     writeHeaderCalled := true;
     StatusCode := statusCode;
     ContentType := Header_Get (rw_Header (writer s)) "Content-Type" |}.

Definition Write (data : list Byte.byte) (s : statusRecorder)
  : statusRecorder * WriteResult :=
  let s1 := if writeHeaderCalled s then s else WriteHeader StatusOK s in
  let '(w', r) := rw_Write data (writer s1) in
  ({| writer := w';
      writeHeaderCalled := writeHeaderCalled s1;
      StatusCode := StatusCode s1;
      ContentType := ContentType s1 |}, r).

Definition Unwrap (s : statusRecorder) : W := writer s.

(** [var _ http.ResponseWriter = &statusRecorder{}] *)
#[export] Instance statusRecorder_ResponseWriter : ResponseWriter statusRecorder := {
  rw_Header := Header;
  rw_StoreHeader := StoreHeader;
  rw_Write := Write;
  rw_WriteHeader := WriteHeader
}.
End StatusRecorder.

Arguments statusRecorder W : clear implicits.

(* ===================================================================== *)
(** ** zap as the package sees it *)
(* ===================================================================== *)

Module zapcore.

(** [zapcore.Level], an [int8] enumeration. *)
Inductive Level :=
  | DebugLevel | InfoLevel | WarnLevel | ErrorLevel
  | DPanicLevel | PanicLevel | FatalLevel.

Definition Level_value (l : Level) : Z :=
  match l with
  | DebugLevel => -1 | InfoLevel => 0 | WarnLevel => 1 | ErrorLevel => 2
  | DPanicLevel => 3 | PanicLevel => 4 | FatalLevel => 5
  end.

Definition Level_eqb (a b : Level) : bool := Level_value a =? Level_value b.

(** [Level.String]. *)
Definition Level_String (l : Level) : string :=
  match l with
  | DebugLevel => "debug" | InfoLevel => "info" | WarnLevel => "warn"
  | ErrorLevel => "error" | DPanicLevel => "dpanic" | PanicLevel => "panic"
  | FatalLevel => "fatal"
  end.

(** A level used as a [LevelEnabler]: [lvl >= l]. *)
Definition Level_Enabled (l lvl : Level) : bool :=
  Level_value l <=? Level_value lvl.

End zapcore.
Export zapcore.

Module zap.

(** A structured field: a key and an encoded value. *)
#[warnings="-register-all"]
Inductive FieldValue :=
  | StringValue (s : string)
  | BoolValue (b : bool)
  | IntValue (n : Z)
  | ObjectValue (fields : list (string * FieldValue)).

Abbreviation Field := (string * FieldValue)%type.

(** [*zap.Logger], as far as the package relies on it: the sink it writes
    to, the level check of its core, its name and the fields accumulated by
    [With].  Loggers are values here; the nil pointer is no logger. *)
Record Logger := {
  lg_core : nat;
  lg_enabled : Level -> bool;
  lg_name : string;
  lg_context : list Field
}.

(** [Logger.With]. *)
Definition With (fields : list Field) (l : Logger) : Logger :=
  {| lg_core := lg_core l; lg_enabled := lg_enabled l;
     lg_name := lg_name l; lg_context := lg_context l ++ fields |}.

(** [Logger.Named]: names are joined by a period; an empty segment is
    ignored. *)
Definition Named (s : string) (l : Logger) : Logger :=
  if String.eqb s "" then l
  else {| lg_core := lg_core l; lg_enabled := lg_enabled l;
          lg_name := if String.eqb (lg_name l) "" then s
                     else String.append (lg_name l) (String.append "." s);
          lg_context := lg_context l |}.

(** A line as the core receives it. *)
Record Entry := {
  en_core : nat;
  en_level : Level;
  en_logger : string;
  en_message : string;
  en_context : list Field;
  en_fields : list Field
}.

(** [*zapcore.CheckedEntry]: the entry, waiting for its fields. *)
Record CheckedEntry := {
  ce_from : Logger;
  ce_level : Level;
  ce_message : string
}.

(** [Logger.Check] for the levels below [DPanicLevel], the only ones the
    package logs at: nil unless the core accepts the level. *)
Definition Check (l : Logger) (lvl : Level) (msg : string) : option CheckedEntry :=
  if lg_enabled l lvl
  then Some {| ce_from := l; ce_level := lvl; ce_message := msg |}
  else None.

(** [CheckedEntry.Write]. *)
Definition CheckedEntry_Write (ce : CheckedEntry) (fields : list Field) : Entry :=
  {| en_core := lg_core (ce_from ce);
     en_level := ce_level ce;
     en_logger := lg_name (ce_from ce);
     en_message := ce_message ce;
     en_context := lg_context (ce_from ce);
     en_fields := fields |}.

End zap.
Export zap.

(* ===================================================================== *)
(** ** OpenTelemetry span contexts, contexts and requests *)
(* ===================================================================== *)

Module trace.

(** [trace.SpanContext]: a 16-byte trace id and an 8-byte span id, read as
    numbers, the flags byte and the remote mark. *)
Record SpanContext := {
  TraceID : Z;
  SpanID : Z;
  TraceFlags : Z;
  Remote : bool
}.

(** [SpanContext.IsValid]: both identifiers are non-zero. *)
Definition IsValid (sc : SpanContext) : bool :=
  negb (TraceID sc =? 0) && negb (SpanID sc =? 0).

(** [SpanContext.IsSampled]: the lowest flag bit. *)
Definition IsSampled (sc : SpanContext) : bool := Z.testbit (TraceFlags sc) 0.

(** The zero span context, which a context without a span yields. *)
Definition emptySpanContext : SpanContext :=
  {| TraceID := 0; SpanID := 0; TraceFlags := 0; Remote := false |}.

End trace.
Export trace.

(** [context.Context] is a chain of associations; the innermost one comes
    first and hides the older ones under the same key. *)
Inductive contextKey :=
  | loggerContextKey
  | currentSpanKey
  | otherKey (name : string).

Inductive contextValue :=
  | LoggerValue (l : Logger)
  | SpanValue (sc : SpanContext)
  | OtherValue (v : string).

Definition contextKey_eqb (a b : contextKey) : bool :=
  match a, b with
  | loggerContextKey, loggerContextKey => true
  | currentSpanKey, currentSpanKey => true
  | otherKey x, otherKey y => String.eqb x y
  | _, _ => false
  end.

Abbreviation Context := (list (contextKey * contextValue)).

(** [context.WithValue]. *)
Definition WithValue (ctx : Context) (k : contextKey) (v : contextValue) : Context :=
  (k, v) :: ctx.

(** [ctx.Value]. *)
Fixpoint Value (ctx : Context) (k : contextKey) : option contextValue :=
  match ctx with
  | [] => None
  | (k', v) :: parent => if contextKey_eqb k' k then Some v else Value parent k
  end.

(** [trace.SpanContextFromContext]. *)
Definition SpanContextFromContext (ctx : Context) : SpanContext :=
  match Value ctx currentSpanKey with
  | Some (SpanValue sc) => sc
  | _ => emptySpanContext
  end.

(** [*http.Request], with the members a filter or a formatter may read. *)
Record Request := {
  Method : string;
  URL : string;
  RequestHeader : http.Header;
  RemoteAddr : string;
  RequestContext : Context
}.

(** [Request.WithContext]: a shallow copy with the context replaced. *)
Definition WithContext (req : Request) (ctx : Context) : Request :=
  {| Method := Method req; URL := URL req;
     RequestHeader := RequestHeader req; RemoteAddr := RemoteAddr req;
     RequestContext := ctx |}.

(* ===================================================================== *)
(** ** The formatter interfaces and the no-op formatter *)
(* ===================================================================== *)

Module ResponseInfo.
Record t := {
  StatusCode : Z;
  ContentType : string;
  Start : Z;
  Latency : Z
}.
End ResponseInfo.
Abbreviation ResponseInfo := ResponseInfo.t.

Class TraceFormatter (F : Type) := {
  GetTraceFields : F -> Request -> SpanContext -> list Field
}.

Class RequestFormatter (F : Type) := {
  GetRequestFields : F -> Request -> ResponseInfo -> list Field
}.

(** [Formatter] embeds both interfaces. *)
Class Formatter (F : Type) := {
  Formatter_trace :: TraceFormatter F;
  Formatter_request :: RequestFormatter F
}.

Inductive noopFormatter := NoopFormatter.

#[export] Instance noopFormatter_TraceFormatter : TraceFormatter noopFormatter := {
  GetTraceFields := fun _ _ _ => []
}.

#[export] Instance noopFormatter_RequestFormatter : RequestFormatter noopFormatter := {
  GetRequestFields := fun _ _ _ => []
}.

#[export] Instance noopFormatter_Formatter : Formatter noopFormatter := {}.

(** A formatter given by its two functions, for callers that bring their
    own. *)
Record funcFormatter := {
  ff_trace : Request -> SpanContext -> list Field;
  ff_request : Request -> ResponseInfo -> list Field
}.

#[export] Instance funcFormatter_TraceFormatter : TraceFormatter funcFormatter := {
  GetTraceFields := ff_trace
}.

#[export] Instance funcFormatter_RequestFormatter : RequestFormatter funcFormatter := {
  GetRequestFields := ff_request
}.

#[export] Instance funcFormatter_Formatter : Formatter funcFormatter := {}.

(** An interface value: an implementation packed with its method table. *)
Record AnyTraceFormatter := {
  tf_type : Type;
  tf_impl : TraceFormatter tf_type;
  tf_value : tf_type
}.

Record AnyRequestFormatter := {
  rf_type : Type;
  rf_impl : RequestFormatter rf_type;
  rf_value : rf_type
}.

Definition asTraceFormatter {F} `{TraceFormatter F} (f : F) : AnyTraceFormatter :=
  {| tf_type := F; tf_impl := _; tf_value := f |}.

Definition asRequestFormatter {F} `{RequestFormatter F} (f : F) : AnyRequestFormatter :=
  {| rf_type := F; rf_impl := _; rf_value := f |}.

Definition callGetTraceFields (f : AnyTraceFormatter) : Request -> SpanContext -> list Field :=
  @GetTraceFields (tf_type f) (tf_impl f) (tf_value f).

Definition callGetRequestFields (f : AnyRequestFormatter) : Request -> ResponseInfo -> list Field :=
  @GetRequestFields (rf_type f) (rf_impl f) (rf_value f).

(* ===================================================================== *)
(** ** handler_options.go *)
(* ===================================================================== *)

Definition PerRequestLoggerFunc := Logger -> Request -> Logger.

Definition DefaultPerRequestLoggerFunc : PerRequestLoggerFunc :=
  fun parent _ => Named "request" parent.

Definition PerRequestFilterFunc := Request -> Level -> bool.

Definition DefaultPerRequestFilterFunc : PerRequestFilterFunc :=
  fun _ _ => true.

Record handlerOptions := {
  logger : Logger;
  perRequestLoggerFn : PerRequestLoggerFunc;
  perRequestFilterFn : PerRequestFilterFunc;
  traceFormatter : AnyTraceFormatter;
  requestFormatter : AnyRequestFormatter
}.

Definition HandlerOption := handlerOptions -> handlerOptions.

Definition WithLogger (l : Logger) : HandlerOption :=
  fun options =>
    {| logger := l;
       perRequestLoggerFn := perRequestLoggerFn options;
       perRequestFilterFn := perRequestFilterFn options;
       traceFormatter := traceFormatter options;
       requestFormatter := requestFormatter options |}.

Definition WithPerRequestLogger (fn : PerRequestLoggerFunc) : HandlerOption :=
  fun options =>
    {| logger := logger options;
       perRequestLoggerFn := fn;
       perRequestFilterFn := perRequestFilterFn options;
       traceFormatter := traceFormatter options;
       requestFormatter := requestFormatter options |}.

Definition WithPerRequestFilter (fn : PerRequestFilterFunc) : HandlerOption :=
  fun options =>
    {| logger := logger options;
       perRequestLoggerFn := perRequestLoggerFn options;
       perRequestFilterFn := fn;
       traceFormatter := traceFormatter options;
       requestFormatter := requestFormatter options |}.

Definition WithTraceFormatter (f : AnyTraceFormatter) : HandlerOption :=
  fun options =>
    {| logger := logger options;
       perRequestLoggerFn := perRequestLoggerFn options;
       perRequestFilterFn := perRequestFilterFn options;
       traceFormatter := f;
       requestFormatter := requestFormatter options |}.

Definition WithRequestFormatter (f : AnyRequestFormatter) : HandlerOption :=
  fun options =>
    {| logger := logger options;
       perRequestLoggerFn := perRequestLoggerFn options;
       perRequestFilterFn := perRequestFilterFn options;
       traceFormatter := traceFormatter options;
       requestFormatter := f |}.

Section Defaults.
(** [zap.L()] at construction time, and [DefaultFormatter], which is the
    common-schema formatter; its field layout plays no part below. *)
Variable zapL : Logger.
Context {D : Type} `{Formatter D}.
Variable DefaultFormatter : D.

Definition defaultHandlerOptions : handlerOptions :=
  {| logger := zapL;
     perRequestLoggerFn := DefaultPerRequestLoggerFunc;
     perRequestFilterFn := DefaultPerRequestFilterFunc;
     traceFormatter := asTraceFormatter DefaultFormatter;
     requestFormatter := asRequestFormatter DefaultFormatter |}.

Definition buildHandlerOptions (opts : list HandlerOption) : handlerOptions :=
  fold_left (fun options fn => fn options) opts defaultHandlerOptions.
End Defaults.

(* ===================================================================== *)
(** ** What a request leaves behind: the trace of calls and lines *)
(* ===================================================================== *)

(** Every call into caller-supplied code and into a logger is an event, in
    the order it happens.  Caller-supplied functions (logger constructor,
    filter, formatters) are total functions here: they return. *)
Inductive Event :=
  | LoggerFnCalled (parent : Logger) (req : Request)
  | TraceFieldsCalled (req : Request) (sc : SpanContext)
  | FilterCalled (req : Request) (lvl : Level)
  | Checked (l : Logger) (lvl : Level) (msg : string)
  | RequestFieldsCalled (req : Request) (res : ResponseInfo)
  | Written (e : Entry).

(** [Logger.Debug], [Logger.Info] and the like: check, then write. *)
Definition Logger_Log (l : Logger) (lvl : Level) (msg : string)
    (fields : list Field) : list Event :=
  Checked l lvl msg ::
  match Check l lvl msg with
  | Some ce => [Written (CheckedEntry_Write ce fields)]
  | None => []
  end.

(* ===================================================================== *)
(** ** ctx.go *)
(* ===================================================================== *)

Definition injectLoggerInContext (req : Request) (l : Logger) : Request :=
  let ctx := WithValue (RequestContext req) loggerContextKey (LoggerValue l) in
  WithContext req ctx.

Definition FromContext_message : string :=
  "FromContext is used outside of a HTTP request context. Make sure the HTTP handler is wrapped in a logging handler.".

(** [zapL] is what [zap.L()] returns at the time of the call. *)
Definition FromContext (zapL : Logger) (ctx : Context) : Logger * list Event :=
  match Value ctx loggerContextKey with
  | Some (LoggerValue l) => (l, [])
  | _ => (zapL, Logger_Log zapL DebugLevel FromContext_message [])
  end.

(* ===================================================================== *)
(** ** Downstream handlers *)
(* ===================================================================== *)

(** The value a panic carries: [panic(nil)] or an error. *)
Inductive PanicValue :=
  | NilValue
  | ErrorValue (msg : string).

(** How a call to [ServeHTTP] ends: by returning, by a panic that unwinds
    through the caller, or by [runtime.Goexit]. *)
Inductive Outcome :=
  | Returned
  | Panicked (v : PanicValue)
  | Goexited.

(** A downstream handler is the tree of what it does to its response
    writer and to loggers, each step continuing with what the step
    returned.  A panic raised inside a writer method is the step followed
    by [Panic]. *)
Inductive Handler :=
  | Return
  | Panic (v : PanicValue)
  | Goexit
  | ReadHeader (k : http.Header -> Handler)
  | MutateHeader (f : http.Header -> http.Header) (k : Handler)
  | DoWrite (data : list Byte.byte) (k : WriteResult -> Handler)
  | DoWriteHeader (statusCode : Z) (k : Handler)
  | DoFromContext (ctx : Context) (k : Logger -> Handler)
  | DoLog (l : Logger) (lvl : Level) (msg : string) (fields : list Field) (k : Handler)
  | Sleep (d : Z) (k : Handler).

Record Served (W : Type) := {
  sv_outcome : Outcome;
  sv_writer : W;
  sv_now : Z;
  sv_events : list Event
}.
Arguments sv_outcome {W}.
Arguments sv_writer {W}.
Arguments sv_now {W}.
Arguments sv_events {W}.

Definition Served_after {W} (evs : list Event) (r : Served W) : Served W :=
  {| sv_outcome := sv_outcome r; sv_writer := sv_writer r;
     sv_now := sv_now r; sv_events := evs ++ sv_events r |}.

(** [next.ServeHTTP(w, req)] against any response writer, started at clock
    reading [now]. *)
Fixpoint ServeHTTP {W} `{ResponseWriter W} (zapL : Logger) (p : Handler)
    (w : W) (now : Z) : Served W :=
  match p with
  | Return => {| sv_outcome := Returned; sv_writer := w; sv_now := now; sv_events := [] |}
  | Panic v => {| sv_outcome := Panicked v; sv_writer := w; sv_now := now; sv_events := [] |}
  | Goexit => {| sv_outcome := Goexited; sv_writer := w; sv_now := now; sv_events := [] |}
  | ReadHeader k => ServeHTTP zapL (k (rw_Header w)) w now
  | MutateHeader f k => ServeHTTP zapL k (rw_StoreHeader (f (rw_Header w)) w) now
  | DoWrite data k =>
      let '(w', r) := rw_Write data w in ServeHTTP zapL (k r) w' now
  | DoWriteHeader statusCode k => ServeHTTP zapL k (rw_WriteHeader statusCode w) now
  | DoFromContext ctx k =>
      let '(l, evs) := FromContext zapL ctx in
      Served_after evs (ServeHTTP zapL (k l) w now)
  | DoLog l lvl msg fields k =>
      Served_after (Logger_Log l lvl msg fields) (ServeHTTP zapL k w now)
  | Sleep d k => ServeHTTP zapL k w (now + d)
  end.

(* ===================================================================== *)
(** ** handler.go *)
(* ===================================================================== *)

Record handler := {
  options : handlerOptions
}.

Definition logRequest (h : handler) (l : Logger) (level : Level) (msg : string)
    (req : Request) (res : ResponseInfo) : list Event :=
  FilterCalled req level ::
  if negb (perRequestFilterFn (options h) req level) then []
  else
    Checked l level msg ::
    match Check l level msg with
    | Some ce =>
        let fields := callGetRequestFields (requestFormatter (options h)) req res in
        [RequestFieldsCalled req res; Written (CheckedEntry_Write ce fields)]
    | None => []
    end.

(** One request through the middleware.  [hd_before] holds the events up
    to the call of the downstream handler, [hd_during] the downstream
    handler's, [hd_finished] those of the code after the call, which runs
    only when the call returned, and [hd_deferred] those of the deferred
    function. *)
Record Handled (W : Type) := {
  hd_outcome : Outcome;
  hd_completed : bool;
  hd_recorder : statusRecorder W;
  hd_request : Request;
  hd_logger : Logger;
  hd_start : Z;
  hd_now : Z;
  hd_before : list Event;
  hd_during : list Event;
  hd_finished : list Event;
  hd_deferred : list Event
}.
Arguments hd_outcome {W}.
Arguments hd_completed {W}.
Arguments hd_recorder {W}.
Arguments hd_request {W}.
Arguments hd_logger {W}.
Arguments hd_start {W}.
Arguments hd_now {W}.
Arguments hd_before {W}.
Arguments hd_during {W}.
Arguments hd_finished {W}.
Arguments hd_deferred {W}.

(** Everything logged once the downstream handler is left. *)
Definition hd_after {W} (r : Handled W) : list Event :=
  hd_finished r ++ hd_deferred r.

Definition hd_events {W} (r : Handled W) : list Event :=
  hd_before r ++ hd_during r ++ hd_after r.

Section HandleRequest.
Context {W : Type} `{ResponseWriter W}.
Variable zapL : Logger.

(** The deferred function: it runs when [handleRequest] is left, whichever
    way, and reads [completed] and the recorder as they are then. *)
Definition handleRequest_deferred (h : handler) (l : Logger) (req : Request)
    (start : Z) (completed : bool) (sr : statusRecorder W) (now : Z) : list Event :=
  if negb completed then
    logRequest h l ErrorLevel "HTTP request panicked" req
      {| ResponseInfo.StatusCode := StatusCode sr;
         ResponseInfo.ContentType := ContentType sr;
         ResponseInfo.Start := start;
         ResponseInfo.Latency := now - start |}
  else [].

Definition handleRequest (h : handler) (w : W) (req : Request)
    (next : Request -> Handler) (now : Z) : Handled W :=
  let start := now in
  let l := perRequestLoggerFn (options h) (logger (options h)) req in
  let evLogger := [LoggerFnCalled (logger (options h)) req] in
  let currentSpan := SpanContextFromContext (RequestContext req) in
  let '(l, evTrace) :=
    if IsValid currentSpan then
      let fields := callGetTraceFields (traceFormatter (options h)) req currentSpan in
      (With fields l, [TraceFieldsCalled req currentSpan])
    else (l, []) in
  let req := injectLoggerInContext req l in
  let sr := newStatusRecorder w in
  let evReceived :=
    logRequest h l DebugLevel "Received HTTP request" req
      {| ResponseInfo.StatusCode := 0; ResponseInfo.ContentType := "";
         ResponseInfo.Start := start; ResponseInfo.Latency := 0 |} in
  let served := ServeHTTP zapL (next req) sr now in
  let sr := sv_writer served in
  let now := sv_now served in
  match sv_outcome served with
  | Returned =>
      let completed := true in
      let res :=
        {| ResponseInfo.StatusCode := StatusCode sr;
           ResponseInfo.ContentType := ContentType sr;
           ResponseInfo.Start := start;
           ResponseInfo.Latency := now - start |} in
      let evFinished :=
        if StatusCode sr <=? 399 then
          logRequest h l InfoLevel "HTTP request finished" req res
        else if StatusCode sr <=? 499 then
          logRequest h l WarnLevel "HTTP request failed due to a client error" req res
        else
          logRequest h l ErrorLevel "HTTP request failed" req res in
      {| hd_outcome := Returned; hd_completed := completed;
         hd_recorder := sr; hd_request := req; hd_logger := l;
         hd_start := start; hd_now := now;
         hd_before := evLogger ++ evTrace ++ evReceived;
         hd_during := sv_events served;
         hd_finished := evFinished;
         hd_deferred := handleRequest_deferred h l req start completed sr now |}
  | unwinding =>
      let completed := false in
      {| hd_outcome := unwinding; hd_completed := completed;
         hd_recorder := sr; hd_request := req; hd_logger := l;
         hd_start := start; hd_now := now;
         hd_before := evLogger ++ evTrace ++ evReceived;
         hd_during := sv_events served;
         hd_finished := [];
         hd_deferred := handleRequest_deferred h l req start completed sr now |}
  end.

(** [Wrap] and [NewHandler]. *)
Definition Wrap (h : handler) (next : Request -> Handler)
    : W -> Request -> Z -> Handled W :=
  fun w req => handleRequest h w req next.
End HandleRequest.

Definition NewHandler {W} `{ResponseWriter W} {D} `{Formatter D}
    (zapL : Logger) (DefaultFormatter : D) (opts : list HandlerOption)
    : (Request -> Handler) -> W -> Request -> Z -> Handled W :=
  let h := {| options := buildHandlerOptions zapL DefaultFormatter opts |} in
  Wrap zapL h.

(* ===================================================================== *)
(** ** Sequences of writer operations *)
(* ===================================================================== *)

(** The three things a caller can do to a response writer. *)
Inductive Op :=
  | OpMutateHeader (f : http.Header -> http.Header)
  | OpWrite (data : list Byte.byte)
  | OpWriteHeader (statusCode : Z).

Definition applyOp {W} `{ResponseWriter W} (w : W) (o : Op) : W :=
  match o with
  | OpMutateHeader f => rw_StoreHeader (f (rw_Header w)) w
  | OpWrite data => fst (rw_Write data w)
  | OpWriteHeader statusCode => rw_WriteHeader statusCode w
  end.

Definition applyOps {W} `{ResponseWriter W} (ops : list Op) (w : W) : W :=
  fold_left applyOp ops w.

Definition isMutateHeader (o : Op) : bool :=
  match o with OpMutateHeader _ => true | _ => false end.

Definition isWriteHeader (o : Op) : bool :=
  match o with OpWriteHeader _ => true | _ => false end.

(** Whether the observer, in state [s], answers [o] by a header-send of its
    own making: the guard of [Write]. *)
Definition synthesizes {W} (s : statusRecorder W) (o : Op) : bool :=
  match o with
  | OpWrite _ => negb (writeHeaderCalled s)
  | _ => false
  end.

(** How many header-sends the observer makes up along a sequence. *)
Fixpoint synthesized {W} `{ResponseWriter W} (ops : list Op)
    (s : statusRecorder W) : nat :=
  match ops with
  | [] => 0%nat
  | o :: rest =>
      ((if synthesizes s o then 1 else 0) + synthesized rest (applyOp s o))%nat
  end.

(* ===================================================================== *)
(** ** Two underlying writers to run things against *)
(* ===================================================================== *)

(** What content sniffing answers, reduced to its last resort: text unless
    a byte outside tab, line feed, form feed, carriage return and the
    printable range occurs. *)
Definition DetectContentType (data : list Byte.byte) : string :=
  if forallb (fun b =>
        let n := Z.of_N (Byte.to_N b) in
        (n =? 9) || (n =? 10) || (n =? 12) || (n =? 13) || (32 <=? n))
      data
  then "text/plain; charset=utf-8"
  else "application/octet-stream".

(** A recorder in the manner of net/http/httptest's: the first header-send
    fixes the code and a snapshot of the header map; a body write that
    finds no header sent stores a sniffed content type first, if none is
    set, and then sends 200. *)
Record ResponseRecorder := {
  rec_Code : Z;
  rec_HeaderMap : http.Header;
  rec_Body : list Byte.byte;
  rec_wroteHeader : bool;
  rec_snapHeader : http.Header
}.

Definition NewRecorder : ResponseRecorder :=
  {| rec_Code := 200; rec_HeaderMap := ∅; rec_Body := [];
     rec_wroteHeader := false; rec_snapHeader := ∅ |}.

Definition ResponseRecorder_WriteHeader (code : Z) (rw : ResponseRecorder)
    : ResponseRecorder :=
  if rec_wroteHeader rw then rw
  else {| rec_Code := code; rec_HeaderMap := rec_HeaderMap rw;
          rec_Body := rec_Body rw; rec_wroteHeader := true;
          rec_snapHeader := rec_HeaderMap rw |}.

Definition ResponseRecorder_StoreHeader (h : http.Header) (rw : ResponseRecorder)
    : ResponseRecorder :=
  {| rec_Code := rec_Code rw; rec_HeaderMap := h; rec_Body := rec_Body rw;
     rec_wroteHeader := rec_wroteHeader rw; rec_snapHeader := rec_snapHeader rw |}.

Definition ResponseRecorder_writeHeader (b : list Byte.byte) (rw : ResponseRecorder)
    : ResponseRecorder :=
  if rec_wroteHeader rw then rw
  else
    let m := rec_HeaderMap rw in
    let hasType := bool_decide (is_Some (m !! "Content-Type")) in
    let hasTE := negb (String.eqb (Header_Get m "Transfer-Encoding") "") in
    let rw :=
      if negb hasType && negb hasTE
      then ResponseRecorder_StoreHeader
             (Header_Set "Content-Type" (DetectContentType b) m) rw
      else rw in
    ResponseRecorder_WriteHeader 200 rw.

Definition ResponseRecorder_Write (buf : list Byte.byte) (rw : ResponseRecorder)
    : ResponseRecorder * WriteResult :=
  let rw := ResponseRecorder_writeHeader buf rw in
  ({| rec_Code := rec_Code rw; rec_HeaderMap := rec_HeaderMap rw;
      rec_Body := rec_Body rw ++ buf; rec_wroteHeader := rec_wroteHeader rw;
      rec_snapHeader := rec_snapHeader rw |},
   (Z.of_nat (length buf), None)).

#[export] Instance ResponseRecorder_ResponseWriter : ResponseWriter ResponseRecorder := {
  rw_Header := rec_HeaderMap;
  rw_StoreHeader := ResponseRecorder_StoreHeader;
  rw_Write := ResponseRecorder_Write;
  rw_WriteHeader := ResponseRecorder_WriteHeader
}.

(** A writer in the manner of the server's own: a body write that finds no
    header sent does exactly a header-send of 200 first; later header-sends
    are dropped. *)
Record serverResponse := {
  srv_status : Z;
  srv_handlerHeader : http.Header;
  srv_wroteHeader : bool;
  srv_sentHeader : http.Header;
  srv_written : list Byte.byte
}.

Definition newServerResponse : serverResponse :=
  {| srv_status := 0; srv_handlerHeader := ∅; srv_wroteHeader := false;
     srv_sentHeader := ∅; srv_written := [] |}.

Definition serverResponse_WriteHeader (code : Z) (w : serverResponse) : serverResponse :=
  if srv_wroteHeader w then w
  else {| srv_status := code; srv_handlerHeader := srv_handlerHeader w;
          srv_wroteHeader := true; srv_sentHeader := srv_handlerHeader w;
          srv_written := srv_written w |}.

Definition serverResponse_StoreHeader (h : http.Header) (w : serverResponse)
    : serverResponse :=
  {| srv_status := srv_status w; srv_handlerHeader := h;
     srv_wroteHeader := srv_wroteHeader w; srv_sentHeader := srv_sentHeader w;
     srv_written := srv_written w |}.

Definition serverResponse_Write (data : list Byte.byte) (w : serverResponse)
    : serverResponse * WriteResult :=
  let w := if srv_wroteHeader w then w else serverResponse_WriteHeader StatusOK w in
  ({| srv_status := srv_status w; srv_handlerHeader := srv_handlerHeader w;
      srv_wroteHeader := srv_wroteHeader w; srv_sentHeader := srv_sentHeader w;
      srv_written := srv_written w ++ data |},
   (Z.of_nat (length data), None)).

#[export] Instance serverResponse_ResponseWriter : ResponseWriter serverResponse := {
  rw_Header := srv_handlerHeader;
  rw_StoreHeader := serverResponse_StoreHeader;
  rw_Write := serverResponse_Write;
  rw_WriteHeader := serverResponse_WriteHeader
}.

(** A logger that writes to sink [core] from level [min] on. *)
Definition NewLogger (core : nat) (min : Level) : Logger :=
  {| lg_core := core; lg_enabled := Level_Enabled min;
     lg_name := ""; lg_context := [] |}.

(** [zap.NewNop]: nothing is enabled.  It is what [zap.L()] returns until
    the globals are replaced. *)
Definition NewNop : Logger :=
  {| lg_core := 0%nat; lg_enabled := fun _ => false;
     lg_name := ""; lg_context := [] |}.

Definition newRequest (method url : string) : Request :=
  {| Method := method; URL := url; RequestHeader := ∅;
     RemoteAddr := "192.0.2.1:1234"; RequestContext := [] |}.

(* ===================================================================== *)
(** ** Reading a trace *)
(* ===================================================================== *)

(** The events handed to a logger's level check, as (level, message). *)
Fixpoint checkedOf (evs : list Event) : list (Level * string) :=
  match evs with
  | [] => []
  | Checked _ lvl msg :: rest => (lvl, msg) :: checkedOf rest
  | _ :: rest => checkedOf rest
  end.

(** The lines written. *)
Fixpoint writtenOf (evs : list Event) : list Entry :=
  match evs with
  | [] => []
  | Written e :: rest => e :: writtenOf rest
  | _ :: rest => writtenOf rest
  end.

(** The filter evaluations, as (request, level). *)
Fixpoint filteredOf (evs : list Event) : list (Request * Level) :=
  match evs with
  | [] => []
  | FilterCalled req lvl :: rest => (req, lvl) :: filteredOf rest
  | _ :: rest => filteredOf rest
  end.

(** The calls of the request formatter. *)
Fixpoint requestFieldsOf (evs : list Event) : list (Request * ResponseInfo) :=
  match evs with
  | [] => []
  | RequestFieldsCalled req res :: rest => (req, res) :: requestFieldsOf rest
  | _ :: rest => requestFieldsOf rest
  end.

(** The calls of the trace formatter. *)
Fixpoint traceFieldsOf (evs : list Event) : list (Request * SpanContext) :=
  match evs with
  | [] => []
  | TraceFieldsCalled req sc :: rest => (req, sc) :: traceFieldsOf rest
  | _ :: rest => traceFieldsOf rest
  end.

(* ===================================================================== *)
(** ** What the specification says, in its own words *)
(* ===================================================================== *)

(** The status table of the specification: at most 399 is info, 400 to 499
    is warning, 500 and above is error. *)
Definition completionTable (status : Z) : option (Level * string) :=
  if status <=? 399 then Some (InfoLevel, "HTTP request finished")
  else if (400 <=? status) && (status <=? 499)
    then Some (WarnLevel, "HTTP request failed due to a client error")
  else if 500 <=? status then Some (ErrorLevel, "HTTP request failed")
  else None.

(** The logger a request gets: the constructor's, with the trace fields
    appended when the span context is valid. *)
Definition perRequestLogger (h : handler) (req : Request) : Logger :=
  let base := perRequestLoggerFn (options h) (logger (options h)) req in
  let sc := SpanContextFromContext (RequestContext req) in
  if IsValid sc
  then With (callGetTraceFields (traceFormatter (options h)) req sc) base
  else base.

(** The line a logger writes for a level, a message and fields. *)
Definition lineOf (l : Logger) (lvl : Level) (msg : string)
    (fields : list Field) : Entry :=
  CheckedEntry_Write {| ce_from := l; ce_level := lvl; ce_message := msg |} fields.

(** The response summary of a finished request. *)
Definition completionInfo {W} (r : Handled W) : ResponseInfo :=
  {| ResponseInfo.StatusCode := StatusCode (hd_recorder r);
     ResponseInfo.ContentType := ContentType (hd_recorder r);
     ResponseInfo.Start := hd_start r;
     ResponseInfo.Latency := hd_now r - hd_start r |}.

(** Transparency as the specification words it: a handler run against the
    wrapped writer leaves the underlying writer as a run against the bare
    writer does, and ends the same way. *)
Definition sameResponse {W} `{ResponseWriter W} (zapL : Logger) (p : Handler)
    (w : W) (now : Z) : Prop :=
  Unwrap (sv_writer (ServeHTTP zapL p (newStatusRecorder w) now))
    = sv_writer (ServeHTTP zapL p w now)
  /\ sv_outcome (ServeHTTP zapL p (newStatusRecorder w) now)
    = sv_outcome (ServeHTTP zapL p w now).

(** The platform rule for header-sends and body writes, in one equation: a
    header-send of 200 followed by a body write is that body write alone.
    A writer whose header is not sent yet sends 200 itself when written to;
    a writer whose header is sent drops the header-send. *)
Class UnheadedWrite (W : Type) `{ResponseWriter W} : Prop :=
  unheaded_Write :
    forall data w, rw_Write data (rw_WriteHeader StatusOK w) = rw_Write data w.

(** The severity of the completion event: by the table when the handler
    returned, error when it did not. *)
Definition completionSeverity (o : Outcome) (status : Z) : Level :=
  match o with
  | Returned =>
      match completionTable status with
      | Some (sev, _) => sev
      | None => ErrorLevel
      end
  | _ => ErrorLevel
  end.

(** The message of the completion event. *)
Definition completionMessage (o : Outcome) (status : Z) : string :=
  match o with
  | Returned =>
      match completionTable status with
      | Some (_, msg) => msg
      | None => "HTTP request failed"
      end
  | _ => "HTTP request panicked"
  end.

(** The response summary of the pre-handling event: the start time and
    nothing else. *)
Definition receivedInfo (start : Z) : ResponseInfo :=
  {| ResponseInfo.StatusCode := 0; ResponseInfo.ContentType := "";
     ResponseInfo.Start := start; ResponseInfo.Latency := 0 |}.

Definition isReturned (o : Outcome) : bool :=
  match o with Returned => true | _ => false end.

(** Whether a context carries a logger under the package's key. *)
Definition hasLogger (ctx : Context) : bool :=
  match Value ctx loggerContextKey with
  | Some (LoggerValue _) => true
  | _ => false
  end.

(** The same handler under another filter. *)
Definition withFilter (fn : PerRequestFilterFunc) (h : handler) : handler :=
  {| options := WithPerRequestFilter fn (options h) |}.

(* ===================================================================== *)
(** ** Fixtures *)
(* ===================================================================== *)

Definition helloBytes : list Byte.byte := String.list_byte_of_string "hello".

Definition testRequest : Request := newRequest "GET" "/".

(** A handler over a logger, with the no-op formatter for both roles. *)
Definition testHandler (l : Logger) (opts : list HandlerOption) : handler :=
  {| options := buildHandlerOptions NewNop NoopFormatter (WithLogger l :: opts) |}.

Definition rejectAll : PerRequestFilterFunc := fun _ _ => false.

(** A request whose context carries a sampled, valid span context. *)
Definition tracedSpan : SpanContext :=
  {| TraceID := 0x0c22384e5a; SpanID := 0x2b15; TraceFlags := 1; Remote := true |}.

Definition tracedRequest : Request :=
  WithContext testRequest
    (WithValue (RequestContext testRequest) currentSpanKey (SpanValue tracedSpan)).

(** A trace formatter with two flat fields. *)
Definition flatFormatter : funcFormatter :=
  {| ff_trace := fun _ sc =>
       [("trace", IntValue (TraceID sc)); ("sampled", BoolValue (IsSampled sc))];
     ff_request := fun _ res =>
       [("status", IntValue (ResponseInfo.StatusCode res));
        ("content_type", StringValue (ResponseInfo.ContentType res))] |}.

(** Handlers the tests of the package use. *)
Definition writeHeaderOnly (code : Z) : Request -> Handler :=
  fun _ => DoWriteHeader code Return.

Definition panicking (v : PanicValue) : Request -> Handler :=
  fun _ => Panic v.

Definition jsonCreated : Request -> Handler :=
  fun _ => MutateHeader (Header_Set "Content-Type" "application/json")
             (DoWriteHeader 201 Return).

(** A handler that starts a body and then reports an error. *)
Definition writeThenError_handler : Handler :=
  MutateHeader (Header_Set "Content-Type" "application/json")
    (DoWrite helloBytes (fun _ =>
       MutateHeader (Header_Set "Content-Type" "text/plain; charset=utf-8")
         (DoWriteHeader 500 Return))).

Definition writeThenError : Request -> Handler :=
  fun _ => writeThenError_handler.

(** The status sweep of the package's tests: a handler sends [code], and
    the one line an info-level logger receives is the table's. *)
Definition sweepLine (code : Z) : bool :=
  let r := handleRequest NewNop (testHandler (NewLogger 1 InfoLevel) [])
             NewRecorder testRequest (writeHeaderOnly code) 0 in
  match writtenOf (hd_events r), completionTable code with
  | [e], Some (sev, msg) =>
      Level_eqb (en_level e) sev && String.eqb (en_message e) msg
      && (rec_Code (Unwrap (hd_recorder r)) =? code)
  | _, _ => false
  end.

(* ===================================================================== *)
(** ** The trace halves of the schema formatters *)
(* ===================================================================== *)

(** [TraceID.String] and [SpanID.String]: lower-case hexadecimal, two
    digits a byte, the first byte first. *)
Definition hexDigit (n : Z) : Ascii.ascii :=
  match String.get (Z.to_nat n) "0123456789abcdef" with
  | Some c => c
  | None => Ascii.ascii_of_nat 48
  end.

Fixpoint hexString (digits : nat) (n : Z) : string :=
  match digits with
  | O => ""
  | S d => String.append (hexString d (n / 16)) (String (hexDigit (n mod 16)) "")
  end.

Definition TraceID_String (sc : SpanContext) : string := hexString 32 (TraceID sc).

Definition SpanID_String (sc : SpanContext) : string := hexString 16 (SpanID sc).

(** [zap.Object]: a key and what the marshaler adds to the encoder. *)
Definition zap_Object (key : string) (added : list Field) : Field :=
  (key, ObjectValue added).

Record ecsTrace := {
  ecsTrace_ID : string;
  ecsTrace_Sampled : bool
}.

Definition ecsTrace_MarshalLogObject (t : ecsTrace) : list Field :=
  [("id", StringValue (ecsTrace_ID t)); ("sampled", BoolValue (ecsTrace_Sampled t))].

Record ecsSpan := {
  ecsSpan_ID : string
}.

Definition ecsSpan_MarshalLogObject (s : ecsSpan) : list Field :=
  [("id", StringValue (ecsSpan_ID s))].

Inductive elasticCommonSchemaFormatter := ElasticCommonSchemaFormatter.

#[export] Instance elasticCommonSchemaFormatter_TraceFormatter
    : TraceFormatter elasticCommonSchemaFormatter := {
  GetTraceFields := fun _ _ spanCtx =>
    [zap_Object "trace"
       (ecsTrace_MarshalLogObject
          {| ecsTrace_ID := TraceID_String spanCtx;
             ecsTrace_Sampled := IsSampled spanCtx |});
     zap_Object "span"
       (ecsSpan_MarshalLogObject {| ecsSpan_ID := SpanID_String spanCtx |})]
}.

Record gcloudFormatter := {
  projectID : string
}.

Definition NewGoogleCloudFormatter (project : string) : gcloudFormatter :=
  {| projectID := project |}.

#[export] Instance gcloudFormatter_TraceFormatter : TraceFormatter gcloudFormatter := {
  GetTraceFields := fun f _ spanCtx =>
    let traceID :=
      String.append "projects/"
        (String.append (projectID f)
           (String.append "/traces/" (TraceID_String spanCtx))) in
    [("trace", StringValue traceID);
     ("spanId", StringValue (SpanID_String spanCtx));
     ("traceSampled", BoolValue (IsSampled spanCtx))]
}.

(* ===================================================================== *)
(** ** Further notions for stating what the code does *)
(* ===================================================================== *)

(** What reaches the underlying writer when [ops] are done to an observer
    whose header-sent flag is [sent]: the same operations, with a
    header-send of 200 ahead of a body write that finds the flag unset. *)
Fixpoint forwarded (sent : bool) (ops : list Op) : list Op :=
  match ops with
  | [] => []
  | OpMutateHeader f :: rest => OpMutateHeader f :: forwarded sent rest
  | OpWrite data :: rest =>
      (if sent then [] else [OpWriteHeader StatusOK])
      ++ OpWrite data :: forwarded true rest
  | OpWriteHeader statusCode :: rest =>
      OpWriteHeader statusCode :: forwarded true rest
  end.

(** A handler that, whatever it is handed back, neither writes a body nor
    sends a header. *)
Fixpoint neverWrites (p : Handler) : Prop :=
  match p with
  | Return | Panic _ | Goexit => True
  | ReadHeader k => forall hdr, neverWrites (k hdr)
  | MutateHeader _ k => neverWrites k
  | DoWrite _ _ => False
  | DoWriteHeader _ _ => False
  | DoFromContext _ k => forall l, neverWrites (k l)
  | DoLog _ _ _ _ k => neverWrites k
  | Sleep _ k => neverWrites k
  end.

(** The calls a caller of [NewHandler] can put in its option list. *)
Inductive optionCall :=
  | CallWithLogger (l : Logger)
  | CallWithPerRequestLogger (fn : PerRequestLoggerFunc)
  | CallWithPerRequestFilter (fn : PerRequestFilterFunc)
  | CallWithTraceFormatter (f : AnyTraceFormatter)
  | CallWithRequestFormatter (f : AnyRequestFormatter).

Definition optionOf (c : optionCall) : HandlerOption :=
  match c with
  | CallWithLogger l => WithLogger l
  | CallWithPerRequestLogger fn => WithPerRequestLogger fn
  | CallWithPerRequestFilter fn => WithPerRequestFilter fn
  | CallWithTraceFormatter f => WithTraceFormatter f
  | CallWithRequestFormatter f => WithRequestFormatter f
  end.

(** The last value a list of calls picks, if any. *)
Fixpoint lastPicked {A} (pick : optionCall -> option A) (calls : list optionCall)
    : option A :=
  match calls with
  | [] => None
  | c :: rest =>
      match lastPicked pick rest with
      | Some a => Some a
      | None => pick c
      end
  end.

Definition pickLogger (c : optionCall) : option Logger :=
  match c with CallWithLogger l => Some l | _ => None end.

Definition pickPerRequestLogger (c : optionCall) : option PerRequestLoggerFunc :=
  match c with CallWithPerRequestLogger fn => Some fn | _ => None end.

Definition pickPerRequestFilter (c : optionCall) : option PerRequestFilterFunc :=
  match c with CallWithPerRequestFilter fn => Some fn | _ => None end.

Definition pickTraceFormatter (c : optionCall) : option AnyTraceFormatter :=
  match c with CallWithTraceFormatter f => Some f | _ => None end.

Definition pickRequestFormatter (c : optionCall) : option AnyRequestFormatter :=
  match c with CallWithRequestFormatter f => Some f | _ => None end.

(** Whether every association of a chain of contexts is under a key other
    than the package's. *)
Definition foreignKeys (extra : Context) : bool :=
  forallb (fun kv => negb (contextKey_eqb (fst kv) loggerContextKey)) extra.

(** A second logger and a handler that only sets headers and logs. *)
Definition otherLogger : Logger :=
  With [("component", StringValue "api")] (NewLogger 2 WarnLevel).

Definition headersOnly : Request -> Handler :=
  fun rq =>
    MutateHeader (Header_Set "Content-Type" "application/json")
      (DoFromContext (RequestContext rq) (fun l =>
         DoLog l InfoLevel "nothing to send" [] Return)).

(** A server-like writer whose header has been sent already. *)
Definition sentServerResponse : serverResponse :=
  serverResponse_WriteHeader 404 newServerResponse.

(** The server-like writer follows the platform rule, header sent or not. *)
#[export] Instance serverResponse_UnheadedWrite : UnheadedWrite serverResponse.
Proof.
  intros data w. cbn.
  unfold serverResponse_Write, serverResponse_WriteHeader.
  destruct (srv_wroteHeader w) eqn:E; simpl; rewrite ?E; reflexivity.
Qed.

(* ===================================================================== *)
(** ** The observer *)
(* ===================================================================== *)

Section RecorderFacts.
Context {W : Type} `{ResponseWriter W}.

Lemma applyOps_app (a b : list Op) (s : statusRecorder W) :
  applyOps (a ++ b) s = applyOps b (applyOps a s).
Proof. unfold applyOps. apply fold_left_app. Qed.

Lemma WriteHeader_records (code : Z) (s : statusRecorder W) :
  StatusCode (WriteHeader code s) = code
  /\ ContentType (WriteHeader code s) = Header_Get (rw_Header (writer s)) "Content-Type"
  /\ writeHeaderCalled (WriteHeader code s) = true
  /\ writer (WriteHeader code s) = rw_WriteHeader code (writer s).
Proof. repeat split. Qed.

(** A body write: the recorder it leaves and the result it returns. *)
Lemma Write_unfold (data : list Byte.byte) (s : statusRecorder W) :
  let s1 := if writeHeaderCalled s then s else WriteHeader StatusOK s in
  writer (fst (Write data s)) = fst (rw_Write data (writer s1))
  /\ snd (Write data s) = snd (rw_Write data (writer s1))
  /\ writeHeaderCalled (fst (Write data s)) = true
  /\ StatusCode (fst (Write data s)) = StatusCode s1
  /\ ContentType (fst (Write data s)) = ContentType s1.
Proof.
  unfold Write. cbv zeta.
  destruct (writeHeaderCalled s) eqn:E.
  - destruct (rw_Write data (writer s)) as [w' r]. simpl. rewrite E. repeat split.
  - destruct (rw_Write data (writer (WriteHeader StatusOK s))) as [w' r].
    simpl. repeat split.
Qed.

(** Header mutations pass through to the underlying writer and leave the
    recorded values alone. *)
Lemma applyOps_mutations (pre : list Op) (s : statusRecorder W) :
  forallb isMutateHeader pre = true ->
  applyOps pre s =
    {| writer := applyOps pre (writer s);
       writeHeaderCalled := writeHeaderCalled s;
       StatusCode := StatusCode s;
       ContentType := ContentType s |}.
Proof.
  revert s. induction pre as [|o pre IH]; intros s Hpre.
  - destruct s; reflexivity.
  - simpl in Hpre. apply andb_prop in Hpre as [Ho Hpre].
    destruct o as [f| |]; try discriminate.
    change (applyOps (OpMutateHeader f :: pre) s)
      with (applyOps pre (applyOp s (OpMutateHeader f))).
    rewrite (IH _ Hpre). reflexivity.
Qed.

Lemma synthesized_app (a b : list Op) (s : statusRecorder W) :
  synthesized (a ++ b) s = (synthesized a s + synthesized b (applyOps a s))%nat.
Proof.
  revert s. induction a as [|o a IH]; intros s; simpl.
  - reflexivity.
  - rewrite IH.
    change (applyOps (o :: a) s) with (applyOps a (applyOp s o)). lia.
Qed.

Lemma synthesized_mutations (pre : list Op) (s : statusRecorder W) :
  forallb isMutateHeader pre = true -> synthesized pre s = 0%nat.
Proof.
  revert s. induction pre as [|o pre IH]; intros s Hpre; simpl.
  - reflexivity.
  - simpl in Hpre. apply andb_prop in Hpre as [Ho Hpre].
    destruct o; try discriminate. simpl. apply IH, Hpre.
Qed.

Lemma applyOp_keeps_flag (o : Op) (s : statusRecorder W) :
  writeHeaderCalled s = true -> writeHeaderCalled (applyOp s o) = true.
Proof.
  intros Hs. destruct o as [f|data|code]; simpl.
  - exact Hs.
  - apply (Write_unfold data s).
  - reflexivity.
Qed.

(** Once a header has been sent, the observer makes up no further one. *)
Lemma synthesized_after_header (ops : list Op) (s : statusRecorder W) :
  writeHeaderCalled s = true -> synthesized ops s = 0%nat.
Proof.
  revert s. induction ops as [|o ops IH]; intros s Hs; simpl.
  - reflexivity.
  - rewrite (IH _ (applyOp_keeps_flag o s Hs)).
    destruct o; simpl; try reflexivity. rewrite Hs. reflexivity.
Qed.

(** Body writes and header mutations after the header was sent leave the
    recorded values alone. *)
Lemma recorded_stable (ops : list Op) (s : statusRecorder W) :
  writeHeaderCalled s = true ->
  forallb (fun o => negb (isWriteHeader o)) ops = true ->
  StatusCode (applyOps ops s) = StatusCode s
  /\ ContentType (applyOps ops s) = ContentType s.
Proof.
  revert s. induction ops as [|o ops IH]; intros s Hs Hops.
  - split; reflexivity.
  - simpl in Hops. apply andb_prop in Hops as [Ho Hops].
    change (applyOps (o :: ops) s) with (applyOps ops (applyOp s o)).
    destruct (IH _ (applyOp_keeps_flag o s Hs) Hops) as [IH1 IH2].
    rewrite IH1, IH2. destruct o as [f|data|code]; simpl.
    + split; reflexivity.
    + destruct (Write_unfold data s) as (_ & _ & _ & Hc & Ht).
      cbv zeta in Hc, Ht. rewrite Hs in Hc, Ht. split; assumption.
    + discriminate.
Qed.

(** A body write that comes before any explicit header-send: right after
    it the recorded status is 200 and the recorded content type is the
    Content-Type header as it stood when the write was made; as long as no
    explicit header-send follows, the recorded values stay. *)
Theorem Write_before_WriteHeader_records_200
    (pre post : list Op) (data : list Byte.byte) (w : W) :
  forallb isMutateHeader pre = true ->
  let s0 := newStatusRecorder w in
  let w1 := applyOps pre w in
  let s1 := applyOps (pre ++ [OpWrite data]) s0 in
  StatusCode s1 = 200
  /\ ContentType s1 = Header_Get (rw_Header w1) "Content-Type"
  /\ writer s1 = fst (rw_Write data (rw_WriteHeader 200 w1))
  /\ synthesized (pre ++ OpWrite data :: post) s0 = 1%nat
  /\ (forallb (fun o => negb (isWriteHeader o)) post = true ->
      StatusCode (applyOps (pre ++ OpWrite data :: post) s0) = 200
      /\ ContentType (applyOps (pre ++ OpWrite data :: post) s0)
         = Header_Get (rw_Header w1) "Content-Type").
Proof.
  intros Hpre s0 w1 s1.
  set (sm := applyOps pre s0).
  assert (Hs1 : s1 = fst (Write data sm)).
  { unfold s1, sm. rewrite applyOps_app. reflexivity. }
  assert (Hmf : writeHeaderCalled sm = false)
    by (unfold sm; rewrite (applyOps_mutations pre s0 Hpre); reflexivity).
  assert (Hmw : writer sm = w1)
    by (unfold sm; rewrite (applyOps_mutations pre s0 Hpre); reflexivity).
  destruct (Write_unfold data sm) as (Hw & _ & Hf & Hc & Ht).
  cbv zeta in Hw, Hc, Ht. rewrite Hmf in Hw, Hc, Ht.
  simpl in Hw, Hc, Ht. rewrite Hmw in Hw, Ht.
  rewrite <- Hs1 in Hw, Hf, Hc, Ht.
  split; [exact Hc|]. split; [exact Ht|]. split; [exact Hw|]. split.
  - change (pre ++ OpWrite data :: post)%list
      with (pre ++ [OpWrite data] ++ post)%list.
    rewrite synthesized_app, (synthesized_mutations pre s0 Hpre).
    rewrite synthesized_app. fold sm. simpl. rewrite Hmf. simpl.
    change (applyOps [OpWrite data] sm) with (fst (Write data sm)).
    rewrite <- Hs1, (synthesized_after_header post s1 Hf). reflexivity.
  - intros Hpost.
    change (pre ++ OpWrite data :: post)%list
      with (pre ++ [OpWrite data] ++ post)%list.
    rewrite app_assoc, applyOps_app. fold s1.
    destruct (recorded_stable post s1 Hf Hpost) as [E1 E2].
    rewrite E1, E2. split; assumption.
Qed.
End RecorderFacts.

(** C4. A second header-send is forwarded and recorded anew.  Run against
    the recorder, a handler sends 200 with a JSON content type, then sets
    another content type and sends 500: after the first header-send the
    observer holds 200 and the JSON type, after the second it holds 500 and
    the later type, while the underlying writer keeps answering with 200 and
    the JSON type. *)
Theorem second_WriteHeader_overwrites_record :
  let first :=
    applyOps [OpMutateHeader (Header_Set "Content-Type" "application/json");
              OpWriteHeader 200] (newStatusRecorder NewRecorder) in
  let second :=
    applyOps [OpMutateHeader (Header_Set "Content-Type" "text/html");
              OpWriteHeader 500] first in
  (StatusCode first = 200 /\ ContentType first = "application/json")
  /\ (StatusCode second = 500 /\ ContentType second = "text/html")
  /\ (rec_Code (Unwrap second) = 200
      /\ Header_Get (rec_snapHeader (Unwrap second)) "Content-Type"
         = "application/json").
Proof. vm_compute. repeat split. Qed.

(** C5. A body write before any header-send, followed by an explicit
    header-send.  Run against the recorder, a handler sets a JSON content
    type and writes a body, then sets another content type and sends 500:
    right after the write the observer holds 200 and the JSON type, at the
    end it holds 500 and the later type, while the underlying writer has
    answered with 200 and the JSON type. *)
Theorem WriteHeader_after_Write_overwrites_200 :
  let written :=
    applyOps [OpMutateHeader (Header_Set "Content-Type" "application/json");
              OpWrite helloBytes] (newStatusRecorder NewRecorder) in
  let final :=
    applyOps [OpMutateHeader (Header_Set "Content-Type" "text/plain; charset=utf-8");
              OpWriteHeader 500] written in
  (StatusCode written = 200 /\ ContentType written = "application/json")
  /\ (StatusCode final = 500
      /\ ContentType final = "text/plain; charset=utf-8")
  /\ (rec_Code (Unwrap final) = 200
      /\ Header_Get (rec_snapHeader (Unwrap final)) "Content-Type"
         = "application/json"
      /\ rec_Body (Unwrap final) = helloBytes).
Proof. vm_compute. repeat split. Qed.

Section Transparency.
Context {W : Type} `{UnheadedWrite W}.
Variable zapL : Logger.

(** A run against the observer and a run against the writer it wraps stay
    in step, whatever state the observer is in. *)
Lemma ServeHTTP_in_step (p : Handler) (s : statusRecorder W) (now : Z) :
  let wrapped := ServeHTTP zapL p s now in
  let bare := ServeHTTP zapL p (writer s) now in
  writer (sv_writer wrapped) = sv_writer bare
  /\ sv_outcome wrapped = sv_outcome bare
  /\ sv_now wrapped = sv_now bare
  /\ sv_events wrapped = sv_events bare.
Proof.
  revert s now.
  induction p as [ | v | | k IH | f k IH | data k IH | code k IH
                 | ctx k IH | l lvl msg fields k IH | d k IH ];
    intros s now; cbv zeta.
  - repeat split.
  - repeat split.
  - repeat split.
  - simpl. apply (IH _ s now).
  - simpl. apply (IH (StoreHeader (f (rw_Header (writer s))) s) now).
  - simpl.
    destruct (Write_unfold data s) as (Hw & Hr & _).
    cbv zeta in Hw, Hr.
    assert (Hsame : rw_Write data
              (writer (if writeHeaderCalled s then s else WriteHeader StatusOK s))
            = rw_Write data (writer s)).
    { destruct (writeHeaderCalled s); [reflexivity|].
      simpl. apply unheaded_Write. }
    rewrite Hsame in Hw, Hr.
    destruct (Write data s) as [s' r] eqn:Es.
    destruct (rw_Write data (writer s)) as [w' r'] eqn:Ew.
    simpl in Hw, Hr. subst w' r'.
    apply (IH r s' now).
  - simpl. apply (IH (WriteHeader code s) now).
  - simpl. destruct (FromContext zapL ctx) as [l evs].
    destruct (IH l s now) as (A & B & C & D).
    simpl. rewrite D. repeat split; assumption.
  - simpl. destruct (IH s now) as (A & B & C & D).
    rewrite D. repeat split; assumption.
  - simpl. apply (IH s (now + d)).
Qed.

(** C9, amended.  Header access returns the underlying map, a header-send
    is forwarded with its status code, a body write returns what the
    underlying write returns, unwrapping gives the underlying writer; and
    when the underlying writer takes a header-send of 200 followed by a
    body write for that body write alone, any handler that uses its writer
    through header access, body writes and header-sends leaves the writer,
    wrapped, as it leaves it bare, whatever state the writer is in when the
    handler starts. *)
Theorem observer_is_transparent (p : Handler) (w : W) (now : Z) :
  (forall s : statusRecorder W, Header s = rw_Header (Unwrap s))
  /\ (forall code (s : statusRecorder W),
        Unwrap (WriteHeader code s) = rw_WriteHeader code (Unwrap s))
  /\ (forall data (s : statusRecorder W),
        let under := if writeHeaderCalled s then Unwrap s
                     else rw_WriteHeader StatusOK (Unwrap s) in
        Unwrap (fst (Write data s)) = fst (rw_Write data under)
        /\ snd (Write data s) = snd (rw_Write data under))
  /\ Unwrap (newStatusRecorder w) = w
  /\ sameResponse zapL p w now
  /\ sv_events (ServeHTTP zapL p (newStatusRecorder w) now)
     = sv_events (ServeHTTP zapL p w now).
Proof.
  split; [reflexivity|]. split; [reflexivity|]. split.
  { intros data s. destruct (Write_unfold data s) as (A & B & _).
    cbv zeta in A, B |- *. unfold Unwrap.
    destruct (writeHeaderCalled s); split; assumption. }
  split; [reflexivity|].
  destruct (ServeHTTP_in_step p (newStatusRecorder w) now)
    as (A & B & _ & D).
  repeat split; assumption.
Qed.
End Transparency.

(** C9, as worded.  Against the recorder, a handler that writes a body
    without sending a header first gets a sniffed Content-Type when it runs
    bare and none when it runs wrapped. *)
Lemma sameResponse_fails_on_recorder :
  ~ sameResponse NewNop (DoWrite helloBytes (fun _ => Return)) NewRecorder 0.
Proof.
  intros [Hw _].
  apply (f_equal (fun rw => Header_Get (rec_snapHeader rw) "Content-Type")) in Hw.
  vm_compute in Hw. discriminate.
Qed.

Lemma observer_is_transparent_witness :
  UnheadedWrite serverResponse
  /\ sameResponse NewNop writeThenError_handler newServerResponse 0
  /\ sameResponse NewNop writeThenError_handler sentServerResponse 0.
Proof.
  split; [exact serverResponse_UnheadedWrite|]. split.
  - exact (proj1 (proj2 (proj2 (proj2 (proj2
      (observer_is_transparent NewNop writeThenError_handler
         newServerResponse 0)))))).
  - exact (proj1 (proj2 (proj2 (proj2 (proj2
      (observer_is_transparent NewNop writeThenError_handler
         sentServerResponse 0)))))).
Defined.

(* ===================================================================== *)
(** ** The middleware *)
(* ===================================================================== *)

Lemma completionTable_total (status : Z) :
  completionTable status =
    Some (if status <=? 399 then (InfoLevel, "HTTP request finished")
          else if status <=? 499
            then (WarnLevel, "HTTP request failed due to a client error")
          else (ErrorLevel, "HTTP request failed")).
Proof.
  unfold completionTable.
  destruct (status <=? 399) eqn:E1; [reflexivity|].
  destruct (status <=? 499) eqn:E2.
  - replace (400 <=? status) with true by lia. reflexivity.
  - replace (400 <=? status) with true by lia.
    replace (500 <=? status) with true by lia. reflexivity.
Qed.

Section LogRequestFacts.
Variables (h : handler) (l : Logger) (level : Level) (msg : string).
Variables (req : Request) (res : ResponseInfo).

Lemma logRequest_filteredOf :
  filteredOf (logRequest h l level msg req res) = [(req, level)].
Proof.
  unfold logRequest, Check.
  destruct (perRequestFilterFn (options h) req level); simpl; [|reflexivity].
  destruct (lg_enabled l level); reflexivity.
Qed.

Lemma logRequest_checkedOf :
  checkedOf (logRequest h l level msg req res) =
    if perRequestFilterFn (options h) req level then [(level, msg)] else [].
Proof.
  unfold logRequest, Check.
  destruct (perRequestFilterFn (options h) req level); simpl; [|reflexivity].
  destruct (lg_enabled l level); reflexivity.
Qed.

Lemma logRequest_writtenOf :
  writtenOf (logRequest h l level msg req res) =
    if perRequestFilterFn (options h) req level && lg_enabled l level
    then [lineOf l level msg
            (callGetRequestFields (requestFormatter (options h)) req res)]
    else [].
Proof.
  unfold logRequest, Check.
  destruct (perRequestFilterFn (options h) req level); simpl; [|reflexivity].
  destruct (lg_enabled l level); reflexivity.
Qed.

Lemma logRequest_requestFieldsOf :
  requestFieldsOf (logRequest h l level msg req res) =
    if perRequestFilterFn (options h) req level && lg_enabled l level
    then [(req, res)] else [].
Proof.
  unfold logRequest, Check.
  destruct (perRequestFilterFn (options h) req level); simpl; [|reflexivity].
  destruct (lg_enabled l level); reflexivity.
Qed.

Lemma logRequest_traceFieldsOf :
  traceFieldsOf (logRequest h l level msg req res) = [].
Proof.
  unfold logRequest, Check.
  destruct (perRequestFilterFn (options h) req level); simpl; [|reflexivity].
  destruct (lg_enabled l level); reflexivity.
Qed.
End LogRequestFacts.

Lemma checkedOf_app (a b : list Event) :
  checkedOf (a ++ b) = checkedOf a ++ checkedOf b.
Proof.
  induction a as [|e a IH]; [reflexivity|].
  destruct e; simpl; rewrite IH; reflexivity.
Qed.

Lemma writtenOf_app (a b : list Event) :
  writtenOf (a ++ b) = writtenOf a ++ writtenOf b.
Proof.
  induction a as [|e a IH]; [reflexivity|].
  destruct e; simpl; rewrite IH; reflexivity.
Qed.

Lemma filteredOf_app (a b : list Event) :
  filteredOf (a ++ b) = filteredOf a ++ filteredOf b.
Proof.
  induction a as [|e a IH]; [reflexivity|].
  destruct e; simpl; rewrite IH; reflexivity.
Qed.

Lemma requestFieldsOf_app (a b : list Event) :
  requestFieldsOf (a ++ b) = requestFieldsOf a ++ requestFieldsOf b.
Proof.
  induction a as [|e a IH]; [reflexivity|].
  destruct e; simpl; rewrite IH; reflexivity.
Qed.

Lemma traceFieldsOf_app (a b : list Event) :
  traceFieldsOf (a ++ b) = traceFieldsOf a ++ traceFieldsOf b.
Proof.
  induction a as [|e a IH]; [reflexivity|].
  destruct e; simpl; rewrite IH; reflexivity.
Qed.

(** A downstream handler has no way to call the filter or a formatter. *)
Lemma ServeHTTP_calls_no_callback {W} `{ResponseWriter W} (zapL : Logger)
    (p : Handler) (w : W) (now : Z) :
  filteredOf (sv_events (ServeHTTP zapL p w now)) = []
  /\ requestFieldsOf (sv_events (ServeHTTP zapL p w now)) = []
  /\ traceFieldsOf (sv_events (ServeHTTP zapL p w now)) = [].
Proof.
  revert w now.
  induction p as [ | v | | k IH | f k IH | data k IH | code k IH
                 | ctx k IH | l lvl msg fields k IH | d k IH ];
    intros w now; simpl; try (repeat split; fail); try apply IH.
  - destruct (rw_Write data w) as [w' r]. apply IH.
  - unfold FromContext, Logger_Log, Check.
    destruct (IH (match Value ctx loggerContextKey with
                  | Some (LoggerValue l) => l | _ => zapL end) w now)
      as (A & B & C).
    destruct (Value ctx loggerContextKey) as [[l| |]|]; simpl;
      try (repeat split; assumption);
      destruct (lg_enabled zapL DebugLevel); simpl; repeat split; assumption.
  - unfold Logger_Log, Check. destruct (IH w now) as (A & B & C).
    destruct (lg_enabled l lvl); simpl; repeat split; assumption.
Qed.

Section MiddlewareFacts.
Context {W : Type} `{ResponseWriter W}.
Variable zapL : Logger.
Variables (h : handler) (w : W) (req : Request) (next : Request -> Handler).
Variable now : Z.

Let r := handleRequest zapL h w req next now.
Let l := perRequestLogger h req.
Let req' := injectLoggerInContext req l.
Let served := ServeHTTP zapL (next req') (newStatusRecorder w) now.

(** What [handleRequest] leaves, part by part. *)
Lemma handleRequest_parts :
  hd_logger r = l
  /\ hd_request r = req'
  /\ hd_start r = now
  /\ hd_outcome r = sv_outcome served
  /\ hd_recorder r = sv_writer served
  /\ hd_now r = sv_now served
  /\ hd_during r = sv_events served
  /\ hd_completed r = isReturned (sv_outcome served)
  /\ hd_before r =
       LoggerFnCalled (logger (options h)) req
       :: (if IsValid (SpanContextFromContext (RequestContext req))
           then [TraceFieldsCalled req (SpanContextFromContext (RequestContext req))]
           else [])
       ++ logRequest h l DebugLevel "Received HTTP request" req'
            {| ResponseInfo.StatusCode := 0; ResponseInfo.ContentType := "";
               ResponseInfo.Start := now; ResponseInfo.Latency := 0 |}.
Proof.
  unfold r, served, req', l, handleRequest, perRequestLogger.
  destruct (IsValid (SpanContextFromContext (RequestContext req)));
    match goal with
    | |- context [sv_outcome ?s] => destruct (sv_outcome s)
    end; repeat split.
Qed.

(** The code after the call runs when the call returned, and logs by the
    status it finds; the deferred function logs when it did not. *)
Lemma handleRequest_finished :
  hd_finished r =
    match sv_outcome served with
    | Returned =>
        logRequest h l
          (completionSeverity Returned (StatusCode (hd_recorder r)))
          (if StatusCode (hd_recorder r) <=? 399 then "HTTP request finished"
           else if StatusCode (hd_recorder r) <=? 499
             then "HTTP request failed due to a client error"
           else "HTTP request failed")
          req' (completionInfo r)
    | _ => []
    end.
Proof.
  unfold completionSeverity. rewrite completionTable_total.
  unfold completionInfo.
  unfold r, served, req', l, handleRequest, perRequestLogger.
  destruct (IsValid (SpanContextFromContext (RequestContext req)));
    match goal with
    | |- context [sv_outcome ?s] => destruct (sv_outcome s) eqn:Eo
    end; try reflexivity; simpl;
    match goal with
    | |- context [StatusCode ?s <=? 399] =>
        destruct (StatusCode s <=? 399); [reflexivity|];
        destruct (StatusCode s <=? 499); reflexivity
    end.
Qed.

Lemma handleRequest_deferred_events :
  hd_deferred r =
    if hd_completed r then []
    else logRequest h l ErrorLevel "HTTP request panicked" req' (completionInfo r).
Proof.
  unfold completionInfo.
  unfold r, served, req', l, handleRequest, perRequestLogger.
  destruct (IsValid (SpanContextFromContext (RequestContext req)));
    match goal with
    | |- context [sv_outcome ?s] => destruct (sv_outcome s) eqn:Eo
    end; reflexivity.
Qed.
Lemma handleRequest_after :
  hd_after r =
    logRequest h l
      (completionSeverity (hd_outcome r) (StatusCode (hd_recorder r)))
      (completionMessage (hd_outcome r) (StatusCode (hd_recorder r)))
      req' (completionInfo r).
Proof.
  unfold hd_after.
  rewrite handleRequest_finished, handleRequest_deferred_events.
  destruct handleRequest_parts as (_ & _ & _ & Ho & _ & _ & _ & Hc & _).
  fold r served in Ho, Hc. rewrite Hc, Ho.
  unfold completionMessage, completionSeverity.
  rewrite completionTable_total.
  destruct (sv_outcome served); cbn [isReturned app];
    [rewrite app_nil_r | reflexivity | reflexivity].
  destruct (StatusCode (hd_recorder r) <=? 399); [reflexivity|].
  destruct (StatusCode (hd_recorder r) <=? 499); reflexivity.
Qed.

(** Before the call, the only event that involves filter, logger or
    request formatter is the pre-handling one. *)
Lemma handleRequest_before :
  let ev := logRequest h l DebugLevel "Received HTTP request" req'
              (receivedInfo now) in
  filteredOf (hd_before r) = filteredOf ev
  /\ checkedOf (hd_before r) = checkedOf ev
  /\ writtenOf (hd_before r) = writtenOf ev
  /\ requestFieldsOf (hd_before r) = requestFieldsOf ev.
Proof.
  destruct handleRequest_parts as (_ & _ & _ & _ & _ & _ & _ & _ & Hb).
  fold r l req' in Hb. cbv zeta. rewrite Hb.
  change (LoggerFnCalled ?a ?b :: ?x ++ ?y) with ((LoggerFnCalled a b :: x) ++ y).
  rewrite filteredOf_app, checkedOf_app, writtenOf_app, requestFieldsOf_app.
  destruct (IsValid (SpanContextFromContext (RequestContext req)));
    repeat split.
Qed.

(** C1. When the downstream handler returns and the filter is the default
    one, the middleware hands exactly one completion event to the logger;
    its severity and message are the table's for the recorded status, and
    the logger writes it as one line when its level check accepts that
    severity.  A handler that sends one header-send has its code recorded,
    whatever the code; a handler that does nothing leaves status 0, which
    falls under info. *)
Theorem completion_log_follows_status :
  perRequestFilterFn (options h) = DefaultPerRequestFilterFunc ->
  hd_outcome r = Returned ->
  exists sev msg,
    completionTable (StatusCode (hd_recorder r)) = Some (sev, msg)
    /\ checkedOf (hd_after r) = [(sev, msg)]
    /\ writtenOf (hd_after r) =
         (if lg_enabled (hd_logger r) sev
          then [lineOf (hd_logger r) sev msg
                  (callGetRequestFields (requestFormatter (options h))
                     (hd_request r) (completionInfo r))]
          else [])
    /\ (forall code, next (hd_request r) = DoWriteHeader code Return ->
          StatusCode (hd_recorder r) = code)
    /\ (next (hd_request r) = Return ->
          StatusCode (hd_recorder r) = 0 /\ sev = InfoLevel).
Proof.
  intros Hfilter Hret.
  destruct handleRequest_parts as (Hl & Hq & _ & Ho & Hs & _).
  fold r l req' served in Hl, Hq, Ho, Hs.
  pose proof handleRequest_after as Hafter. rewrite Hret in Hafter.
  unfold completionSeverity, completionMessage in Hafter.
  rewrite completionTable_total in Hafter |- *.
  set (status := StatusCode (hd_recorder r)) in *.
  assert (Hcode : forall code, next (hd_request r) = DoWriteHeader code Return ->
                    status = code).
  { intros code Hnext. unfold status. rewrite Hs. unfold served.
    rewrite Hq in Hnext. rewrite Hnext. reflexivity. }
  assert (Hzero : next (hd_request r) = Return -> status = 0).
  { intros Hnext. rewrite Hq in Hnext.
    unfold status. rewrite Hs. unfold served. rewrite Hnext. reflexivity. }
  assert (Hchk : forall sev msg,
            checkedOf (logRequest h l sev msg req' (completionInfo r)) = [(sev, msg)]).
  { intros sev msg. rewrite logRequest_checkedOf, Hfilter. reflexivity. }
  assert (Hwr : forall sev msg,
            writtenOf (logRequest h l sev msg req' (completionInfo r)) =
              if lg_enabled (hd_logger r) sev
              then [lineOf (hd_logger r) sev msg
                      (callGetRequestFields (requestFormatter (options h))
                         (hd_request r) (completionInfo r))]
              else []).
  { intros sev msg. rewrite logRequest_writtenOf, Hfilter, Hl, Hq. reflexivity. }
  destruct (status <=? 399) eqn:E1; [|destruct (status <=? 499) eqn:E2];
    eexists _, _; (split; [reflexivity|]); rewrite Hafter;
    (split; [apply Hchk|]); (split; [apply Hwr|]); (split; [exact Hcode|]);
    intros Hnext; specialize (Hzero Hnext); split; try assumption;
    try reflexivity; rewrite Hzero in E1; discriminate.
Qed.

(** C2. When the downstream handler does not return, the code after the
    call is skipped and the deferred function issues the one completion
    event: error severity, the panicked message, the status and content
    type the observer holds at that moment.  It reaches the logger when the
    filter accepts it and is written when the level check accepts it; no
    other completion event exists.  The way the handler ended, panic value
    included, is the way [handleRequest] ends. *)
Theorem abnormal_exit_logs_panicked_and_unwinds :
  hd_outcome r <> Returned ->
  hd_outcome r = sv_outcome served
  /\ hd_recorder r = sv_writer served
  /\ hd_completed r = false
  /\ hd_finished r = []
  /\ hd_after r =
       logRequest h (hd_logger r) ErrorLevel "HTTP request panicked"
         (hd_request r)
         {| ResponseInfo.StatusCode := StatusCode (sv_writer served);
            ResponseInfo.ContentType := ContentType (sv_writer served);
            ResponseInfo.Start := now;
            ResponseInfo.Latency := sv_now served - now |}
  /\ filteredOf (hd_after r) = [(hd_request r, ErrorLevel)]
  /\ checkedOf (hd_after r) =
       (if perRequestFilterFn (options h) (hd_request r) ErrorLevel
        then [(ErrorLevel, "HTTP request panicked")] else [])
  /\ writtenOf (hd_after r) =
       (if perRequestFilterFn (options h) (hd_request r) ErrorLevel
           && lg_enabled (hd_logger r) ErrorLevel
        then [lineOf (hd_logger r) ErrorLevel "HTTP request panicked"
                (callGetRequestFields (requestFormatter (options h))
                   (hd_request r) (completionInfo r))]
        else []).
Proof.
  intros Hnot.
  destruct handleRequest_parts as (Hl & Hq & Hst & Ho & Hs & Hn & _ & Hc & _).
  fold r l req' served in Hl, Hq, Hst, Ho, Hs, Hn, Hc.
  pose proof handleRequest_after as Hafter.
  pose proof handleRequest_finished as Hfin. fold r l req' served in Hfin.
  assert (Hsev : completionSeverity (hd_outcome r) (StatusCode (hd_recorder r))
                 = ErrorLevel)
    by (destruct (hd_outcome r); [contradiction | reflexivity | reflexivity]).
  assert (Hmsg : completionMessage (hd_outcome r) (StatusCode (hd_recorder r))
                 = "HTTP request panicked")
    by (destruct (hd_outcome r); [contradiction | reflexivity | reflexivity]).
  rewrite Hsev, Hmsg in Hafter. clear Hsev Hmsg.
  split; [exact Ho|]. split; [exact Hs|]. split.
  { rewrite Hc, <- Ho. destruct (hd_outcome r); [contradiction| |]; reflexivity. }
  split.
  { rewrite Hfin, <- Ho. destruct (hd_outcome r); [contradiction| |]; reflexivity. }
  split.
  { rewrite Hafter, Hl, Hq. unfold completionInfo. rewrite Hs, Hst, Hn. reflexivity. }
  split.
  { rewrite Hafter, logRequest_filteredOf, Hq. reflexivity. }
  split.
  { rewrite Hafter, logRequest_checkedOf, Hq. reflexivity. }
  rewrite Hafter, logRequest_writtenOf, Hl, Hq. reflexivity.
Qed.
End MiddlewareFacts.

Section MiddlewareInvariants.
Context {W : Type} `{ResponseWriter W}.
Variable zapL : Logger.
Variables (h : handler) (w : W) (req : Request) (next : Request -> Handler).
Variable now : Z.

Let r := handleRequest zapL h w req next now.

Lemma writtenOf_logRequest_le_1 (l : Logger) (lvl : Level) (msg : string)
    (rq : Request) (res : ResponseInfo) :
  (length (writtenOf (logRequest h l lvl msg rq res)) <= 1)%nat.
Proof.
  rewrite logRequest_writtenOf.
  destruct (perRequestFilterFn (options h) rq lvl && lg_enabled l lvl);
    simpl; lia.
Qed.

Lemma before_filteredOf :
  filteredOf (hd_before r) = [(hd_request r, DebugLevel)]
  /\ (length (writtenOf (hd_before r)) <= 1)%nat.
Proof.
  destruct (handleRequest_parts zapL h w req next now)
    as (_ & Hq & _ & _ & _ & _ & _ & _ & Hb).
  fold r in Hq, Hb. rewrite Hb, Hq.
  change (LoggerFnCalled ?a ?b :: ?x ++ ?y) with ((LoggerFnCalled a b :: x) ++ y).
  rewrite filteredOf_app, writtenOf_app, logRequest_filteredOf.
  destruct (IsValid (SpanContextFromContext (RequestContext req))); simpl;
    (split; [reflexivity | apply writtenOf_logRequest_le_1]).
Qed.

(** C3. Whatever the downstream handler does, one pre-handling event is
    issued, writing at most one line, and one completion event, writing at
    most one line.  Each of the two is handed to the logger exactly when
    the filter accepts it, and is written as one line exactly when the
    logger's level check accepts it too.  The flag set after the call
    decides which of the two places issues the completion event: when it is
    set, the code after the call has issued it and the deferred function
    stays silent; when it is not, the code after the call never ran and the
    deferred function issues it.  The flag is set exactly when the handler
    returned. *)
Theorem one_completion_event_per_request :
  let accepts := perRequestFilterFn (options h) (hd_request r) in
  let enabled := lg_enabled (hd_logger r) in
  let fieldsFor := callGetRequestFields (requestFormatter (options h))
                     (hd_request r) in
  let sev := completionSeverity (hd_outcome r) (StatusCode (hd_recorder r)) in
  let msg := completionMessage (hd_outcome r) (StatusCode (hd_recorder r)) in
  let checked := if accepts sev then [(sev, msg)] else [] in
  let written :=
    if accepts sev && enabled sev
    then [lineOf (hd_logger r) sev msg (fieldsFor (completionInfo r))]
    else [] in
  length (filteredOf (hd_before r)) = 1%nat
  /\ (length (writtenOf (hd_before r)) <= 1)%nat
  /\ length (filteredOf (hd_after r)) = 1%nat
  /\ (length (writtenOf (hd_after r)) <= 1)%nat
  /\ hd_completed r = isReturned (hd_outcome r)
  /\ (if hd_completed r
      then length (filteredOf (hd_finished r)) = 1%nat /\ hd_deferred r = []
      else hd_finished r = [] /\ length (filteredOf (hd_deferred r)) = 1%nat)
  /\ checkedOf (hd_before r) =
       (if accepts DebugLevel
        then [(DebugLevel, "Received HTTP request")] else [])
  /\ writtenOf (hd_before r) =
       (if accepts DebugLevel && enabled DebugLevel
        then [lineOf (hd_logger r) DebugLevel "Received HTTP request"
                (fieldsFor (receivedInfo (hd_start r)))]
        else [])
  /\ checkedOf (hd_after r) = checked
  /\ writtenOf (hd_after r) = written
  /\ (if hd_completed r
      then checkedOf (hd_finished r) = checked
           /\ writtenOf (hd_finished r) = written
      else checkedOf (hd_deferred r) = checked
           /\ writtenOf (hd_deferred r) = written).
Proof.
  intros accepts enabled fieldsFor sev msg checked written.
  destruct before_filteredOf as [Hb1 Hb2].
  destruct (handleRequest_parts zapL h w req next now)
    as (Hl & Hq & Hst & Ho & _ & _ & _ & Hc & _).
  destruct (handleRequest_before zapL h w req next now) as (_ & Hbc & Hbw & _).
  pose proof (handleRequest_after zapL h w req next now) as Hafter.
  pose proof (handleRequest_finished zapL h w req next now) as Hfin.
  pose proof (handleRequest_deferred_events zapL h w req next now) as Hdef.
  fold r in Hl, Hq, Hst, Ho, Hc, Hbc, Hbw, Hafter, Hfin, Hdef.
  fold sev msg in Hafter.
  assert (Hpaths :
    if hd_completed r
    then length (filteredOf (hd_finished r)) = 1%nat /\ hd_deferred r = []
    else hd_finished r = [] /\ length (filteredOf (hd_deferred r)) = 1%nat).
  { rewrite Hfin, Hdef, Hc.
    destruct (sv_outcome _); cbn [isReturned];
      rewrite ?logRequest_filteredOf; split; reflexivity. }
  assert (Hchecked : checkedOf (hd_after r) = checked).
  { rewrite Hafter, logRequest_checkedOf. unfold checked, accepts.
    rewrite Hq. reflexivity. }
  assert (Hwritten : writtenOf (hd_after r) = written).
  { rewrite Hafter, logRequest_writtenOf.
    unfold written, accepts, enabled, fieldsFor. rewrite Hq, Hl. reflexivity. }
  split; [rewrite Hb1; reflexivity|]. split; [exact Hb2|].
  split; [rewrite Hafter, logRequest_filteredOf; reflexivity|].
  split; [rewrite Hafter; apply writtenOf_logRequest_le_1|].
  split; [rewrite Hc, Ho; reflexivity|].
  split; [exact Hpaths|].
  split.
  { rewrite Hbc, logRequest_checkedOf. unfold accepts. rewrite Hq. reflexivity. }
  split.
  { rewrite Hbw, logRequest_writtenOf.
    unfold accepts, enabled, fieldsFor. rewrite Hq, Hl, Hst. reflexivity. }
  split; [exact Hchecked|]. split; [exact Hwritten|].
  rewrite <- Hchecked, <- Hwritten. unfold hd_after.
  destruct (hd_completed r); destruct Hpaths as [P1 P2].
  - rewrite P2, app_nil_r. split; reflexivity.
  - rewrite P1. split; reflexivity.
Qed.

(** C6. The filter is asked once for every event the middleware issues,
    with the request and the severity of that event: debug for the
    pre-handling event, the classified severity for the completion event of
    a handler that returned, error for one that did not.  An event it
    rejects is not handed to the logger, so nothing is written for it; an
    event it accepts is.  Which filter is installed changes nothing else:
    the outcome, the recorder with the underlying writer in it, the
    handler's own events and the severities asked for are the same under any
    other filter.  The default filter accepts everything. *)
Theorem filter_gates_every_emission (fn : PerRequestFilterFunc) :
  let r' := handleRequest zapL (withFilter fn h) w req next now in
  let accepts := perRequestFilterFn (options h) (hd_request r) in
  let sev := completionSeverity (hd_outcome r) (StatusCode (hd_recorder r)) in
  let msg := completionMessage (hd_outcome r) (StatusCode (hd_recorder r)) in
  (filteredOf (hd_before r) = [(hd_request r, DebugLevel)]
   /\ filteredOf (hd_during r) = []
   /\ filteredOf (hd_after r) = [(hd_request r, sev)])
  /\ (checkedOf (hd_before r) =
        (if accepts DebugLevel
         then [(DebugLevel, "Received HTTP request")] else [])
      /\ checkedOf (hd_after r) = (if accepts sev then [(sev, msg)] else []))
  /\ (length (writtenOf (hd_before r))
        <= (if accepts DebugLevel then 1 else 0)
      /\ length (writtenOf (hd_after r)) <= (if accepts sev then 1 else 0))%nat
  /\ (hd_outcome r' = hd_outcome r
      /\ hd_recorder r' = hd_recorder r
      /\ hd_during r' = hd_during r
      /\ filteredOf (hd_events r') = filteredOf (hd_events r))
  /\ (forall rq lvl, DefaultPerRequestFilterFunc rq lvl = true).
Proof.
  intros r' accepts sev msg.
  assert (Hall : forall (h0 : handler),
            let r0 := handleRequest zapL h0 w req next now in
            filteredOf (hd_before r0) = [(hd_request r0, DebugLevel)]
            /\ filteredOf (hd_during r0) = []
            /\ filteredOf (hd_after r0) =
                 [(hd_request r0,
                   completionSeverity (hd_outcome r0)
                     (StatusCode (hd_recorder r0)))]).
  { intros h0 r0.
    destruct (handleRequest_parts zapL h0 w req next now)
      as (_ & Hq & _ & _ & _ & _ & Hd & _).
    destruct (handleRequest_before zapL h0 w req next now) as (Hb & _).
    pose proof (handleRequest_after zapL h0 w req next now) as Ha.
    fold r0 in Hq, Hd, Hb, Ha.
    rewrite Hb, Ha, !logRequest_filteredOf, Hd, Hq.
    destruct (ServeHTTP_calls_no_callback zapL
                (next (injectLoggerInContext req (perRequestLogger h0 req)))
                (newStatusRecorder w) now) as (Hf & _ & _).
    rewrite Hf. repeat split. }
  destruct (handleRequest_parts zapL h w req next now)
    as (Hl & Hq & _ & Ho & Hs & _ & Hd & _).
  destruct (handleRequest_parts zapL (withFilter fn h) w req next now)
    as (_ & Hq' & _ & Ho' & Hs' & _ & Hd' & _).
  destruct (handleRequest_before zapL h w req next now) as (_ & Hbc & Hbw & _).
  pose proof (handleRequest_after zapL h w req next now) as Hafter.
  fold r in Hl, Hq, Ho, Hs, Hd, Hbc, Hbw, Hafter.
  fold r' in Hq', Ho', Hs', Hd'.
  fold sev msg in Hafter.
  split; [exact (Hall h)|]. split.
  { rewrite Hbc, Hafter, !logRequest_checkedOf. unfold accepts.
    rewrite Hq. split; reflexivity. }
  split.
  { rewrite Hbw, Hafter, !logRequest_writtenOf. unfold accepts. rewrite Hq.
    split.
    - destruct (perRequestFilterFn (options h) _ DebugLevel); simpl; [|lia].
      destruct (lg_enabled _ DebugLevel); simpl; lia.
    - destruct (perRequestFilterFn (options h) _ sev); simpl; [|lia].
      destruct (lg_enabled _ sev); simpl; lia. }
  split; [|intros rq lvl; reflexivity].
  assert (Ho2 : hd_outcome r' = hd_outcome r) by (rewrite Ho, Ho'; reflexivity).
  assert (Hs2 : hd_recorder r' = hd_recorder r) by (rewrite Hs, Hs'; reflexivity).
  split; [exact Ho2|]. split; [exact Hs2|].
  split; [rewrite Hd, Hd'; reflexivity|].
  destruct (Hall h) as (A1 & A2 & A3).
  destruct (Hall (withFilter fn h)) as (B1 & B2 & B3).
  fold r in A1, A2, A3. fold r' in B1, B2, B3.
  unfold hd_events. rewrite !filteredOf_app.
  rewrite A1, A2, A3, B1, B2, B3, Ho2, Hs2, Hq, Hq'. reflexivity.
Qed.

Lemma logRequest_lines_carry_context (l : Logger) (lvl : Level) (msg : string)
    (rq : Request) (res : ResponseInfo) :
  Forall (fun e => en_context e = lg_context l)
    (writtenOf (logRequest h l lvl msg rq res)).
Proof.
  rewrite logRequest_writtenOf.
  destruct (perRequestFilterFn (options h) rq lvl && lg_enabled l lvl);
    repeat constructor.
Qed.

(** C7. The trace formatter is called once when the span context of the
    incoming request is valid and not at all when it is not.  In the first
    case its fields are appended to the logger the constructor returned, and
    every line the middleware writes for the request, pre-handling and
    completion alike, carries them after the constructor's own; in the
    second the logger is the constructor's and the lines carry no more than
    its fields.  The logger the handler finds in its context is that same
    logger. *)
Theorem trace_fields_iff_valid_span :
  let sc := SpanContextFromContext (RequestContext req) in
  let base := perRequestLoggerFn (options h) (logger (options h)) req in
  let fields := callGetTraceFields (traceFormatter (options h)) req sc in
  traceFieldsOf (hd_events r) = (if IsValid sc then [(req, sc)] else [])
  /\ hd_logger r = (if IsValid sc then With fields base else base)
  /\ lg_context (hd_logger r)
     = lg_context base ++ (if IsValid sc then fields else [])
  /\ Forall (fun e => en_context e
                      = lg_context base ++ (if IsValid sc then fields else []))
       (writtenOf (hd_before r ++ hd_after r))
  /\ FromContext zapL (RequestContext (hd_request r)) = (hd_logger r, []).
Proof.
  intros sc base fields.
  destruct (handleRequest_parts zapL h w req next now)
    as (Hl & Hq & _ & _ & _ & _ & Hd & _ & Hb).
  pose proof (handleRequest_after zapL h w req next now) as Hafter.
  fold r in Hl, Hq, Hd, Hb, Hafter. fold sc in Hb.
  assert (Hlog : hd_logger r = if IsValid sc then With fields base else base)
    by (rewrite Hl; reflexivity).
  assert (Hctx : lg_context (hd_logger r)
                 = lg_context base ++ (if IsValid sc then fields else [])).
  { rewrite Hlog. destruct (IsValid sc); simpl; [reflexivity|].
    symmetry. apply app_nil_r. }
  split.
  { unfold hd_events. rewrite !traceFieldsOf_app, Hafter, Hd, Hb.
    rewrite logRequest_traceFieldsOf.
    destruct (ServeHTTP_calls_no_callback zapL
                (next (injectLoggerInContext req (perRequestLogger h req)))
                (newStatusRecorder w) now) as (_ & _ & Ht).
    rewrite Ht.
    change (LoggerFnCalled ?a ?b :: ?x ++ ?y) with ((LoggerFnCalled a b :: x) ++ y).
    rewrite traceFieldsOf_app, logRequest_traceFieldsOf.
    destruct (IsValid sc); reflexivity. }
  split; [exact Hlog|]. split; [exact Hctx|]. split.
  { rewrite <- Hctx, writtenOf_app. apply Forall_app. split.
    - rewrite Hb.
      change (LoggerFnCalled ?a ?b :: ?x ++ ?y) with ((LoggerFnCalled a b :: x) ++ y).
      rewrite writtenOf_app.
      replace (writtenOf (LoggerFnCalled (logger (options h)) req
                 :: (if IsValid sc then [TraceFieldsCalled req sc] else [])))
        with (@nil Entry) by (destruct (IsValid sc); reflexivity).
      rewrite Hl. apply logRequest_lines_carry_context.
    - rewrite Hafter, Hl. apply logRequest_lines_carry_context. }
  rewrite Hq, Hl. reflexivity.
Qed.

(** C8. [FromContext] always returns a logger.  On a context that carries
    one under the package's key it returns that logger and logs nothing; a
    context the middleware made by injection is such a context, and so is
    the one the downstream handler receives.  On any other context it
    returns the global logger and hands it exactly one event, at debug
    level with the diagnostic message, which the global logger writes when
    its level check accepts debug. *)
Theorem FromContext_never_fails (ctx : Context) :
  (if hasLogger ctx
   then exists l', Value ctx loggerContextKey = Some (LoggerValue l')
                   /\ FromContext zapL ctx = (l', [])
   else fst (FromContext zapL ctx) = zapL
        /\ checkedOf (snd (FromContext zapL ctx))
           = [(DebugLevel, FromContext_message)]
        /\ writtenOf (snd (FromContext zapL ctx))
           = (if lg_enabled zapL DebugLevel
              then [lineOf zapL DebugLevel FromContext_message []]
              else []))
  /\ (forall rq l',
        hasLogger (RequestContext (injectLoggerInContext rq l')) = true
        /\ FromContext zapL (RequestContext (injectLoggerInContext rq l'))
           = (l', []))
  /\ hasLogger (RequestContext (hd_request r)) = true
  /\ FromContext zapL (RequestContext (hd_request r)) = (hd_logger r, [])
  /\ hasLogger [] = false.
Proof.
  split.
  { unfold hasLogger, FromContext, Logger_Log, Check.
    destruct (Value ctx loggerContextKey) as [[l'| |]|]; simpl;
      try (eexists; split; reflexivity);
      destruct (lg_enabled zapL DebugLevel); repeat split. }
  split; [intros rq l'; split; reflexivity|].
  destruct (handleRequest_parts zapL h w req next now) as (Hl & Hq & _).
  fold r in Hl, Hq. rewrite Hq, Hl. repeat split.
Qed.

(** C10. For each event the middleware issues, the request formatter is
    called exactly when the event gets written: once, with the request and
    the response summary of that event, when the filter accepts the event
    and the logger's level check accepts it, and not at all when either
    rejects it.  The downstream handler never calls it. *)
Theorem formatter_runs_only_for_written_lines :
  let accepts := perRequestFilterFn (options h) (hd_request r) in
  let enabled := lg_enabled (hd_logger r) in
  let fieldsFor := callGetRequestFields (requestFormatter (options h))
                     (hd_request r) in
  let sev := completionSeverity (hd_outcome r) (StatusCode (hd_recorder r)) in
  let msg := completionMessage (hd_outcome r) (StatusCode (hd_recorder r)) in
  (requestFieldsOf (hd_before r) =
     (if accepts DebugLevel && enabled DebugLevel
      then [(hd_request r, receivedInfo (hd_start r))] else [])
   /\ writtenOf (hd_before r) =
        (if accepts DebugLevel && enabled DebugLevel
         then [lineOf (hd_logger r) DebugLevel "Received HTTP request"
                 (fieldsFor (receivedInfo (hd_start r)))]
         else []))
  /\ requestFieldsOf (hd_during r) = []
  /\ (requestFieldsOf (hd_after r) =
        (if accepts sev && enabled sev
         then [(hd_request r, completionInfo r)] else [])
      /\ writtenOf (hd_after r) =
           (if accepts sev && enabled sev
            then [lineOf (hd_logger r) sev msg (fieldsFor (completionInfo r))]
            else []))
  /\ length (requestFieldsOf (hd_events r))
     = length (writtenOf (hd_before r ++ hd_after r)).
Proof.
  intros accepts enabled fieldsFor sev msg.
  destruct (handleRequest_parts zapL h w req next now)
    as (Hl & Hq & Hst & _ & _ & _ & Hd & _).
  destruct (handleRequest_before zapL h w req next now) as (_ & _ & Hbw & Hbr).
  pose proof (handleRequest_after zapL h w req next now) as Hafter.
  fold r in Hl, Hq, Hst, Hd, Hbw, Hbr, Hafter. fold sev msg in Hafter.
  destruct (ServeHTTP_calls_no_callback zapL
              (next (injectLoggerInContext req (perRequestLogger h req)))
              (newStatusRecorder w) now) as (_ & Hrf & _).
  assert (Hbefore :
    requestFieldsOf (hd_before r) =
      (if accepts DebugLevel && enabled DebugLevel
       then [(hd_request r, receivedInfo (hd_start r))] else [])
    /\ writtenOf (hd_before r) =
         (if accepts DebugLevel && enabled DebugLevel
          then [lineOf (hd_logger r) DebugLevel "Received HTTP request"
                  (fieldsFor (receivedInfo (hd_start r)))]
          else [])).
  { rewrite Hbr, Hbw, logRequest_requestFieldsOf, logRequest_writtenOf.
    unfold accepts, enabled, fieldsFor. rewrite Hq, Hl, Hst. split; reflexivity. }
  assert (Hafter' :
    requestFieldsOf (hd_after r) =
      (if accepts sev && enabled sev
       then [(hd_request r, completionInfo r)] else [])
    /\ writtenOf (hd_after r) =
         (if accepts sev && enabled sev
          then [lineOf (hd_logger r) sev msg (fieldsFor (completionInfo r))]
          else [])).
  { rewrite Hafter, logRequest_requestFieldsOf, logRequest_writtenOf.
    unfold accepts, enabled, fieldsFor. rewrite Hq, Hl. split; reflexivity. }
  split; [exact Hbefore|]. split; [rewrite Hd; exact Hrf|].
  split; [exact Hafter'|].
  unfold hd_events.
  rewrite !requestFieldsOf_app, writtenOf_app, Hd, Hrf, !length_app.
  destruct Hbefore as [-> ->]. destruct Hafter' as [-> ->].
  destruct (accepts DebugLevel && enabled DebugLevel);
    destruct (accepts sev && enabled sev); reflexivity.
Qed.
End MiddlewareInvariants.

(* ===================================================================== *)
(** ** The theorems at concrete requests *)
(* ===================================================================== *)

Lemma completion_log_follows_status_witness :
  perRequestFilterFn (options (testHandler (NewLogger 1 InfoLevel) []))
    = DefaultPerRequestFilterFunc
  /\ hd_outcome (handleRequest NewNop (testHandler (NewLogger 1 InfoLevel) [])
                   NewRecorder testRequest (writeHeaderOnly 404) 0) = Returned
  /\ checkedOf (hd_after (handleRequest NewNop (testHandler (NewLogger 1 InfoLevel) [])
                            NewRecorder testRequest (writeHeaderOnly 404) 0))
     = [(WarnLevel, "HTTP request failed due to a client error")].
Proof.
  split; [reflexivity|]. split; [reflexivity|].
  destruct (completion_log_follows_status NewNop
              (testHandler (NewLogger 1 InfoLevel) []) NewRecorder testRequest
              (writeHeaderOnly 404) 0 eq_refl eq_refl)
    as (sev & msg & Ht & Hc & _).
  vm_compute in Ht. injection Ht as <- <-. exact Hc.
Defined.

Lemma abnormal_exit_logs_panicked_and_unwinds_witness :
  hd_outcome (handleRequest NewNop (testHandler (NewLogger 1 InfoLevel) [])
                NewRecorder testRequest (panicking (ErrorValue "broken")) 0)
    <> Returned
  /\ hd_outcome (handleRequest NewNop (testHandler (NewLogger 1 InfoLevel) [])
                   NewRecorder testRequest (panicking (ErrorValue "broken")) 0)
     = Panicked (ErrorValue "broken")
  /\ checkedOf (hd_after (handleRequest NewNop (testHandler (NewLogger 1 InfoLevel) [])
                            NewRecorder testRequest (panicking (ErrorValue "broken")) 0))
     = [(ErrorLevel, "HTTP request panicked")].
Proof.
  assert (Hne : hd_outcome (handleRequest NewNop (testHandler (NewLogger 1 InfoLevel) [])
                  NewRecorder testRequest (panicking (ErrorValue "broken")) 0)
                <> Returned) by (vm_compute; discriminate).
  split; [exact Hne|].
  destruct (abnormal_exit_logs_panicked_and_unwinds NewNop
              (testHandler (NewLogger 1 InfoLevel) []) NewRecorder testRequest
              (panicking (ErrorValue "broken")) 0 Hne)
    as (Ho & _ & _ & _ & _ & _ & Hc & _).
  split; [exact Ho | exact Hc].
Defined.

Lemma Write_before_WriteHeader_records_200_witness :
  forallb isMutateHeader [OpMutateHeader (Header_Set "Content-Type" "text/plain")]
    = true
  /\ StatusCode
       (applyOps ([OpMutateHeader (Header_Set "Content-Type" "text/plain")]
                  ++ [OpWrite helloBytes]) (newStatusRecorder NewRecorder)) = 200
  /\ ContentType
       (applyOps ([OpMutateHeader (Header_Set "Content-Type" "text/plain")]
                  ++ [OpWrite helloBytes]) (newStatusRecorder NewRecorder))
     = "text/plain"
  /\ synthesized
       ([OpMutateHeader (Header_Set "Content-Type" "text/plain")]
        ++ OpWrite helloBytes :: [OpWrite helloBytes; OpWriteHeader 500])
       (newStatusRecorder NewRecorder) = 1%nat.
Proof.
  split; [reflexivity|].
  destruct (Write_before_WriteHeader_records_200
              [OpMutateHeader (Header_Set "Content-Type" "text/plain")]
              [OpWrite helloBytes; OpWriteHeader 500] helloBytes NewRecorder eq_refl)
    as (Hc & Ht & _ & Hn & _).
  split; [exact Hc|]. split; [exact Ht | exact Hn].
Defined.

(** The status sweep of the package's tests, codes 100 to 599. *)
Example status_sweep_100_599 :
  forallb sweepLine (map Z.of_nat (seq 100 500)) = true.
Proof. vm_compute. reflexivity. Qed.

(** With a debug-level logger a request writes two lines, the pre-handling
    one first. *)
Example debug_logger_writes_two_lines :
  map (fun e => (en_level e, en_message e))
    (writtenOf (hd_events (handleRequest NewNop
       (testHandler (NewLogger 1 DebugLevel) []) NewRecorder testRequest
       (writeHeaderOnly 200) 0)))
  = [(DebugLevel, "Received HTTP request"); (InfoLevel, "HTTP request finished")].
Proof. reflexivity. Qed.

(** A panic with the nil value is logged like any other. *)
Example panic_nil_is_logged :
  let r := handleRequest NewNop (testHandler (NewLogger 1 InfoLevel) [])
             NewRecorder testRequest (panicking NilValue) 0 in
  hd_outcome r = Panicked NilValue
  /\ map (fun e => (en_level e, en_message e)) (writtenOf (hd_events r))
     = [(ErrorLevel, "HTTP request panicked")].
Proof. split; reflexivity. Qed.

(** A filter that rejects everything leaves no line, and the response is
    what it is without it. *)
Example rejecting_filter_writes_nothing :
  let r := handleRequest NewNop
             (testHandler (NewLogger 1 DebugLevel) [WithPerRequestFilter rejectAll])
             NewRecorder testRequest (writeHeaderOnly 200) 0 in
  writtenOf (hd_events r) = [] /\ rec_Code (Unwrap (hd_recorder r)) = 200.
Proof. split; reflexivity. Qed.

(** The status and the content type reach the formatter. *)
Example status_and_content_type_are_passed :
  requestFieldsOf (hd_after (handleRequest NewNop
     (testHandler (NewLogger 1 InfoLevel) []) NewRecorder testRequest jsonCreated 0))
  = [(injectLoggerInContext testRequest
        (perRequestLogger (testHandler (NewLogger 1 InfoLevel) []) testRequest),
      {| ResponseInfo.StatusCode := 201;
         ResponseInfo.ContentType := "application/json";
         ResponseInfo.Start := 0; ResponseInfo.Latency := 0 |})].
Proof. reflexivity. Qed.

(** A handler that starts the body and then sends 500: the client has got
    200, the completion line says error. *)
Example late_WriteHeader_reaches_the_log :
  let r := handleRequest NewNop (testHandler (NewLogger 1 InfoLevel) [])
             NewRecorder testRequest writeThenError 0 in
  rec_Code (Unwrap (hd_recorder r)) = 200
  /\ StatusCode (hd_recorder r) = 500
  /\ map (fun e => (en_level e, en_message e)) (writtenOf (hd_events r))
     = [(ErrorLevel, "HTTP request failed")].
Proof. repeat split. Qed.

(** With a valid span context in the request, both lines carry the trace
    fields; the handler's own line, logged through the logger it finds in
    its context, carries them too. *)
Example traced_request_lines_carry_trace_fields :
  let next := fun rq : Request =>
    DoFromContext (RequestContext rq) (fun l =>
      DoLog l InfoLevel "This should also contain the trace ID" []
        (DoWriteHeader 200 Return)) in
  let r := handleRequest NewNop
             (testHandler (NewLogger 1 DebugLevel)
                [WithTraceFormatter (asTraceFormatter flatFormatter)])
             NewRecorder tracedRequest next 0 in
  map (fun e => (en_message e, en_context e)) (writtenOf (hd_events r))
  = [("Received HTTP request",
      [("trace", IntValue 0x0c22384e5a); ("sampled", BoolValue true)]);
     ("This should also contain the trace ID",
      [("trace", IntValue 0x0c22384e5a); ("sampled", BoolValue true)]);
     ("HTTP request finished",
      [("trace", IntValue 0x0c22384e5a); ("sampled", BoolValue true)])]
  /\ traceFieldsOf (hd_events r) = [(tracedRequest, tracedSpan)].
Proof. split; reflexivity. Qed.

(** Without a span context nothing is asked of the trace formatter. *)
Example untraced_request_has_no_trace_fields :
  let r := handleRequest NewNop
             (testHandler (NewLogger 1 DebugLevel)
                [WithTraceFormatter (asTraceFormatter flatFormatter)])
             NewRecorder testRequest (writeHeaderOnly 200) 0 in
  map en_context (writtenOf (hd_events r)) = [[]; []]
  /\ traceFieldsOf (hd_events r) = [].
Proof. split; reflexivity. Qed.

(** Outside a wrapped request the global logger comes back, after one debug
    line. *)
Example FromContext_outside_a_request :
  let global := NewLogger 7 DebugLevel in
  fst (FromContext global []) = global
  /\ map (fun e => (en_core e, en_level e)) (writtenOf (snd (FromContext global [])))
     = [(7%nat, DebugLevel)].
Proof. split; reflexivity. Qed.

(** The global logger of a fresh process is the no-op one: the diagnostic
    is handed to it and goes nowhere. *)
Example FromContext_with_the_nop_global :
  checkedOf (snd (FromContext NewNop [])) = [(DebugLevel, FromContext_message)]
  /\ writtenOf (snd (FromContext NewNop [])) = [].
Proof. split; reflexivity. Qed.

(* ===================================================================== *)
(** ** More on the observer *)
(* ===================================================================== *)

Section RecorderMore.
Context {W : Type} `{ResponseWriter W}.

(** X1. After any sequence of operations whose last explicit header-send
    carries [code], the observer holds [code] and the Content-Type header as
    it stood when that header-send was made, whatever was written or sent
    before and whatever is written or set after. *)
Theorem last_WriteHeader_is_recorded (pre post : list Op) (code : Z)
    (s : statusRecorder W) :
  forallb (fun o => negb (isWriteHeader o)) post = true ->
  StatusCode (applyOps (pre ++ OpWriteHeader code :: post) s) = code
  /\ ContentType (applyOps (pre ++ OpWriteHeader code :: post) s)
     = Header_Get (Header (applyOps pre s)) "Content-Type"
  /\ writeHeaderCalled (applyOps (pre ++ OpWriteHeader code :: post) s) = true.
Proof.
  intros Hpost.
  rewrite applyOps_app.
  change (applyOps (OpWriteHeader code :: post) (applyOps pre s))
    with (applyOps post (WriteHeader code (applyOps pre s))).
  destruct (recorded_stable post (WriteHeader code (applyOps pre s)) eq_refl Hpost)
    as [E1 E2].
  rewrite E1, E2. split; [reflexivity|]. split; [reflexivity|].
  generalize (WriteHeader code (applyOps pre s)), (eq_refl true : writeHeaderCalled (WriteHeader code (applyOps pre s)) = true).
  clear. induction post as [|o post IH]; intros s Hs; [exact Hs|].
  change (applyOps (o :: post) s) with (applyOps post (applyOp s o)).
  apply IH, applyOp_keeps_flag, Hs.
Qed.

Lemma synthesized_le_1 (ops : list Op) (s : statusRecorder W) :
  (synthesized ops s <= 1)%nat.
Proof.
  revert s. induction ops as [|o ops IH]; intros s; simpl; [lia|].
  destruct o as [f|data|code]; simpl.
  - apply IH.
  - destruct (writeHeaderCalled s) eqn:E; simpl; [apply IH|].
    rewrite synthesized_after_header; [lia|]. apply (Write_unfold data s).
  - apply IH.
Qed.

(** X2. What the underlying writer goes through is what was done to the
    observer, in the same order, with nothing left out and nothing added
    but a header-send of 200 ahead of a body write that finds no header
    sent; at most one such header-send is ever added. *)
Theorem observer_forwards_in_order (ops : list Op) (s : statusRecorder W) :
  Unwrap (applyOps ops s) = applyOps (forwarded (writeHeaderCalled s) ops) (Unwrap s)
  /\ length (forwarded (writeHeaderCalled s) ops)
     = (length ops + synthesized ops s)%nat
  /\ (synthesized ops s <= 1)%nat.
Proof.
  split; [|split; [|apply synthesized_le_1]].
  - revert s. induction ops as [|o ops IH]; intros s; [reflexivity|].
    change (applyOps (o :: ops) s) with (applyOps ops (applyOp s o)).
    rewrite IH. destruct o as [f|data|code]; simpl.
    + reflexivity.
    + destruct (Write_unfold data s) as (Hw & _ & Hf & _).
      cbv zeta in Hw. unfold Unwrap. rewrite Hf, Hw.
      destruct (writeHeaderCalled s); reflexivity.
    + reflexivity.
  - revert s. induction ops as [|o ops IH]; intros s; [reflexivity|].
    destruct o as [f|data|code].
    + specialize (IH (applyOp s (OpMutateHeader f))). simpl in IH |- *.
      rewrite IH. reflexivity.
    + destruct (Write_unfold data s) as (_ & _ & Hf & _).
      specialize (IH (applyOp s (OpWrite data))). simpl in IH |- *.
      rewrite Hf in IH. rewrite length_app. simpl. rewrite IH.
      destruct (writeHeaderCalled s); simpl; lia.
    + specialize (IH (applyOp s (OpWriteHeader code))). simpl in IH |- *.
      rewrite IH. reflexivity.
Qed.
End RecorderMore.

Lemma last_WriteHeader_is_recorded_witness :
  forallb (fun o => negb (isWriteHeader o))
    [OpMutateHeader (Header_Set "Content-Type" "text/css"); OpWrite helloBytes] = true
  /\ StatusCode
       (applyOps ([OpWrite helloBytes;
                   OpMutateHeader (Header_Set "Content-Type" "text/html")]
                  ++ OpWriteHeader 404
                     :: [OpMutateHeader (Header_Set "Content-Type" "text/css");
                         OpWrite helloBytes])
          (newStatusRecorder NewRecorder)) = 404
  /\ ContentType
       (applyOps ([OpWrite helloBytes;
                   OpMutateHeader (Header_Set "Content-Type" "text/html")]
                  ++ OpWriteHeader 404
                     :: [OpMutateHeader (Header_Set "Content-Type" "text/css");
                         OpWrite helloBytes])
          (newStatusRecorder NewRecorder)) = "text/html".
Proof.
  split; [reflexivity|].
  destruct (last_WriteHeader_is_recorded
              [OpWrite helloBytes;
               OpMutateHeader (Header_Set "Content-Type" "text/html")]
              [OpMutateHeader (Header_Set "Content-Type" "text/css");
               OpWrite helloBytes]
              404 (newStatusRecorder NewRecorder) eq_refl) as (Hc & Ht & _).
  split; [exact Hc | exact Ht].
Defined.

(* ===================================================================== *)
(** ** More on options, contexts and the middleware *)
(* ===================================================================== *)

Lemma fold_options_field {A} (field : handlerOptions -> A)
    (pick : optionCall -> option A) (calls : list optionCall)
    (o0 : handlerOptions) :
  (forall c o, field (optionOf c o) = default (field o) (pick c)) ->
  field (fold_left (fun options fn => fn options) (map optionOf calls) o0)
  = default (field o0) (lastPicked pick calls).
Proof.
  intros Hstep. revert o0.
  induction calls as [|c calls IH]; intros o0; [reflexivity|].
  simpl. rewrite IH, Hstep.
  destruct (lastPicked pick calls); [reflexivity|].
  destruct (pick c); reflexivity.
Qed.

(** X6. Built from any list of option calls, each member of the aggregate
    is what the last call for that member set, and the default when no call
    set it; calls for other members do not disturb it. *)
Theorem buildHandlerOptions_last_call_wins {D} `{Formatter D}
    (zapL : Logger) (DefaultFormatter : D) (calls : list optionCall) :
  let o := buildHandlerOptions zapL DefaultFormatter (map optionOf calls) in
  logger o = default zapL (lastPicked pickLogger calls)
  /\ perRequestLoggerFn o
     = default DefaultPerRequestLoggerFunc (lastPicked pickPerRequestLogger calls)
  /\ perRequestFilterFn o
     = default DefaultPerRequestFilterFunc (lastPicked pickPerRequestFilter calls)
  /\ traceFormatter o
     = default (asTraceFormatter DefaultFormatter)
         (lastPicked pickTraceFormatter calls)
  /\ requestFormatter o
     = default (asRequestFormatter DefaultFormatter)
         (lastPicked pickRequestFormatter calls).
Proof.
  cbv zeta. unfold buildHandlerOptions.
  split; [apply (fold_options_field logger pickLogger);
          intros [] ?; reflexivity|].
  split; [apply (fold_options_field perRequestLoggerFn pickPerRequestLogger);
          intros [] ?; reflexivity|].
  split; [apply (fold_options_field perRequestFilterFn pickPerRequestFilter);
          intros [] ?; reflexivity|].
  split; [apply (fold_options_field traceFormatter pickTraceFormatter);
          intros [] ?; reflexivity|].
  apply (fold_options_field requestFormatter pickRequestFormatter).
  intros [] ?; reflexivity.
Qed.

Lemma FromContext_skips_foreign (zapL : Logger) (extra ctx : Context) :
  foreignKeys extra = true ->
  FromContext zapL (extra ++ ctx) = FromContext zapL ctx.
Proof.
  intros Hextra. unfold FromContext.
  replace (Value (extra ++ ctx) loggerContextKey) with (Value ctx loggerContextKey);
    [reflexivity|].
  induction extra as [|[k v] extra IH]; [reflexivity|].
  simpl in Hextra. apply andb_prop in Hextra as [Hk Hextra].
  simpl. apply negb_true_iff in Hk. rewrite Hk. apply IH, Hextra.
Qed.

Section MiddlewareMore.
Context {W : Type} `{ResponseWriter W}.
Variable zapL : Logger.
Variables (h : handler) (w : W) (req : Request) (next : Request -> Handler).
Variable now : Z.

Let r := handleRequest zapL h w req next now.

Lemma neverWrites_keeps_record (p : Handler) (s : statusRecorder W) (t : Z) :
  neverWrites p ->
  writeHeaderCalled (sv_writer (ServeHTTP zapL p s t)) = writeHeaderCalled s
  /\ StatusCode (sv_writer (ServeHTTP zapL p s t)) = StatusCode s
  /\ ContentType (sv_writer (ServeHTTP zapL p s t)) = ContentType s.
Proof.
  revert s t.
  induction p as [ | v | | k IH | f k IH | data k IH | code k IH
                 | ctx k IH | l lvl msg fields k IH | d k IH ];
    intros s t Hp; simpl in Hp |- *; try (repeat split; fail);
    try contradiction.
  - apply IH, Hp.
  - destruct (IH (StoreHeader (f (rw_Header (writer s))) s) t Hp) as (A & B & C).
    repeat split; assumption.
  - destruct (FromContext zapL ctx) as [l evs]. simpl. apply IH, Hp.
  - apply IH, Hp.
  - apply IH, Hp.
Qed.

(** X3. When the downstream handler neither writes a body nor sends a
    header, the observer is left as it was made: status 0 and no content
    type, whatever headers the handler set.  The completion event is then
    issued at info severity when the handler returned and at error severity
    when it did not, and what reaches the logger and the request formatter
    for it is a response summary with status 0 and an empty content type. *)
Theorem silent_handler_is_logged_with_status_0 :
  neverWrites (next (hd_request r)) ->
  let accepts := perRequestFilterFn (options h) (hd_request r) in
  let enabled := lg_enabled (hd_logger r) in
  let sev := if isReturned (hd_outcome r) then InfoLevel else ErrorLevel in
  let msg := if isReturned (hd_outcome r) then "HTTP request finished"
             else "HTTP request panicked" in
  let info := {| ResponseInfo.StatusCode := 0;
                 ResponseInfo.ContentType := "";
                 ResponseInfo.Start := hd_start r;
                 ResponseInfo.Latency := hd_now r - hd_start r |} in
  writeHeaderCalled (hd_recorder r) = false
  /\ ResponseInfo.StatusCode (completionInfo r) = 0
  /\ ResponseInfo.ContentType (completionInfo r) = ""
  /\ filteredOf (hd_after r) = [(hd_request r, sev)]
  /\ checkedOf (hd_after r) = (if accepts sev then [(sev, msg)] else [])
  /\ requestFieldsOf (hd_after r) =
       (if accepts sev && enabled sev then [(hd_request r, info)] else [])
  /\ writtenOf (hd_after r) =
       (if accepts sev && enabled sev
        then [lineOf (hd_logger r) sev msg
                (callGetRequestFields (requestFormatter (options h))
                   (hd_request r) info)]
        else []).
Proof.
  intros Hp accepts enabled sev msg info.
  destruct (handleRequest_parts zapL h w req next now)
    as (Hl & Hq & _ & Ho & Hs & _).
  pose proof (handleRequest_after zapL h w req next now) as Hafter.
  fold r in Hl, Hq, Ho, Hs, Hafter. rewrite Hq in Hp.
  destruct (neverWrites_keeps_record _ (newStatusRecorder w) now Hp) as (A & B & C).
  rewrite <- Hs in A, B, C. simpl in A, B, C.
  assert (Hinfo : completionInfo r = info).
  { unfold completionInfo, info. rewrite B, C. reflexivity. }
  assert (Hsev : completionSeverity (hd_outcome r) (StatusCode (hd_recorder r)) = sev).
  { rewrite B. unfold sev. destruct (hd_outcome r); reflexivity. }
  assert (Hmsg : completionMessage (hd_outcome r) (StatusCode (hd_recorder r)) = msg).
  { rewrite B. unfold msg. destruct (hd_outcome r); reflexivity. }
  rewrite Hsev, Hmsg, Hinfo in Hafter.
  split; [exact A|]. split; [exact B|]. split; [exact C|].
  rewrite Hafter, logRequest_filteredOf, logRequest_checkedOf,
    logRequest_requestFieldsOf, logRequest_writtenOf.
  unfold accepts, enabled. rewrite Hq, Hl. repeat split.
Qed.

(** X4. A context derived from another by associations under other keys
    yields the same logger, with the same diagnostic or none.  So inside a
    wrapped request every such context derived from the request's yields
    the per-request logger. *)
Theorem FromContext_through_derived_contexts (extra : Context) :
  foreignKeys extra = true ->
  (forall ctx, FromContext zapL (extra ++ ctx) = FromContext zapL ctx)
  /\ FromContext zapL (extra ++ RequestContext (hd_request r)) = (hd_logger r, []).
Proof.
  intros Hextra. split.
  - intros ctx. apply FromContext_skips_foreign, Hextra.
  - rewrite (FromContext_skips_foreign _ _ _ Hextra).
    destruct (handleRequest_parts zapL h w req next now) as (Hl & Hq & _).
    fold r in Hl, Hq. rewrite Hq, Hl. reflexivity.
Qed.

(** X5. The request handed downstream is the incoming one with the logger
    added and nothing else changed: method, URL, headers and remote address
    are the incoming ones, the span context is the incoming one, and every
    key but the package's has the value it had.  A logger the incoming
    context already carried is hidden by the new one. *)
Theorem downstream_request_only_gains_the_logger :
  Method (hd_request r) = Method req
  /\ URL (hd_request r) = URL req
  /\ RequestHeader (hd_request r) = RequestHeader req
  /\ RemoteAddr (hd_request r) = RemoteAddr req
  /\ SpanContextFromContext (RequestContext (hd_request r))
     = SpanContextFromContext (RequestContext req)
  /\ (forall k, k <> loggerContextKey ->
        Value (RequestContext (hd_request r)) k = Value (RequestContext req) k)
  /\ (forall outer,
        Value (RequestContext
                 (hd_request (handleRequest zapL h w
                                (injectLoggerInContext req outer) next now)))
          loggerContextKey
        = Some (LoggerValue
                  (hd_logger (handleRequest zapL h w
                                (injectLoggerInContext req outer) next now)))).
Proof.
  destruct (handleRequest_parts zapL h w req next now) as (_ & Hq & _).
  fold r in Hq. rewrite Hq.
  split; [reflexivity|]. split; [reflexivity|]. split; [reflexivity|].
  split; [reflexivity|]. split; [reflexivity|]. split.
  - intros k Hk. destruct k; [contradiction | reflexivity | reflexivity].
  - intros outer.
    destruct (handleRequest_parts zapL h w (injectLoggerInContext req outer) next now)
      as (Hl' & Hq' & _).
    rewrite Hq', Hl'. reflexivity.
Qed.

(** X7. With the default constructor the per-request logger is the base
    logger under another name: it writes to the base logger's core and
    passes the base logger's level check, and every line the middleware
    writes bears the base logger's name extended by "request". *)
Theorem default_constructor_renames_the_base_logger :
  perRequestLoggerFn (options h) = DefaultPerRequestLoggerFunc ->
  let base := logger (options h) in
  let name := if String.eqb (lg_name base) "" then "request"
              else String.append (lg_name base) ".request" in
  lg_core (hd_logger r) = lg_core base
  /\ lg_enabled (hd_logger r) = lg_enabled base
  /\ lg_name (hd_logger r) = name
  /\ Forall (fun e => en_core e = lg_core base /\ en_logger e = name)
       (writtenOf (hd_before r ++ hd_after r)).
Proof.
  intros Hfn base name.
  destruct (handleRequest_parts zapL h w req next now) as (Hl & _).
  destruct (handleRequest_before zapL h w req next now) as (_ & _ & Hbw & _).
  pose proof (handleRequest_after zapL h w req next now) as Hafter.
  fold r in Hl, Hbw, Hafter.
  assert (Hcore : lg_core (hd_logger r) = lg_core base
                  /\ lg_enabled (hd_logger r) = lg_enabled base
                  /\ lg_name (hd_logger r) = name).
  { rewrite Hl. unfold perRequestLogger. rewrite Hfn.
    unfold DefaultPerRequestLoggerFunc, Named. fold base.
    destruct (IsValid (SpanContextFromContext (RequestContext req)));
      repeat split. }
  destruct Hcore as (C1 & C2 & C3).
  split; [exact C1|]. split; [exact C2|]. split; [exact C3|].
  rewrite writtenOf_app, Hbw, Hafter, !logRequest_writtenOf, <- Hl.
  apply Forall_app. split;
    match goal with
    | |- context [if ?b then _ else _] => destruct b
    end; repeat constructor; simpl; assumption.
Qed.

(** X9. With the no-op formatter in both roles the per-request logger is
    the constructor's, valid span context or not, and every line the
    middleware writes has no fields of its own and no context beyond the
    constructor's. *)
Theorem noop_formatters_add_nothing :
  traceFormatter (options h) = asTraceFormatter NoopFormatter ->
  requestFormatter (options h) = asRequestFormatter NoopFormatter ->
  let base := perRequestLoggerFn (options h) (logger (options h)) req in
  hd_logger r = base
  /\ Forall (fun e => en_fields e = [] /\ en_context e = lg_context base)
       (writtenOf (hd_before r ++ hd_after r)).
Proof.
  intros Htf Hrf base.
  destruct (handleRequest_parts zapL h w req next now) as (Hl & _).
  destruct (handleRequest_before zapL h w req next now) as (_ & _ & Hbw & _).
  pose proof (handleRequest_after zapL h w req next now) as Hafter.
  fold r in Hl, Hbw, Hafter.
  assert (Hbase : hd_logger r = base).
  { rewrite Hl. unfold perRequestLogger. rewrite Htf. fold base.
    destruct (IsValid (SpanContextFromContext (RequestContext req)));
      [|reflexivity].
    unfold With, callGetTraceFields. simpl. rewrite app_nil_r.
    destruct base; reflexivity. }
  split; [exact Hbase|].
  rewrite writtenOf_app, Hbw, Hafter, !logRequest_writtenOf, <- Hl, Hrf, Hbase.
  apply Forall_app. split;
    match goal with
    | |- context [if ?b then _ else _] => destruct b
    end; repeat constructor.
Qed.
End MiddlewareMore.

Section MiddlewareOverLawfulWriter.
Context {W : Type} `{UnheadedWrite W}.
Variable zapL : Logger.
Variables (h : handler) (w : W) (req : Request) (next : Request -> Handler).
Variable now : Z.

(** X8. Over a writer that takes a header-send of 200 followed by a body
    write for that body write alone, and for a downstream handler that uses
    its writer through header access, body writes and header-sends, the
    middleware leaves the writer as the handler alone, given the same
    request, would have left it, ends as that handler ends and takes the
    time it takes; the state the writer is in at the start plays no part. *)
Theorem middleware_leaves_the_response_alone :
  let r := handleRequest zapL h w req next now in
  let bare := ServeHTTP zapL (next (hd_request r)) w now in
  Unwrap (hd_recorder r) = sv_writer bare
  /\ hd_outcome r = sv_outcome bare
  /\ hd_now r = sv_now bare
  /\ hd_during r = sv_events bare.
Proof.
  intros r bare.
  destruct (handleRequest_parts zapL h w req next now)
    as (_ & Hq & _ & Ho & Hs & Hn & Hd & _).
  fold r in Hq, Ho, Hs, Hn, Hd.
  destruct (ServeHTTP_in_step zapL (next (hd_request r)) (newStatusRecorder w) now)
    as (A & B & C & D).
  unfold bare. rewrite Hs, Ho, Hn, Hd, <- Hq.
  repeat split; assumption.
Qed.
End MiddlewareOverLawfulWriter.

(* ===================================================================== *)
(** ** The trace fields of the schema formatters *)
(* ===================================================================== *)

Lemma append_inv_head (p a b : string) :
  String.append p a = String.append p b -> a = b.
Proof.
  induction p as [|c p IH]; simpl; intros E; [exact E|].
  injection E as E. apply IH, E.
Qed.

Lemma append_last_inj (s1 s2 : string) (c1 c2 : Ascii.ascii) :
  String.append s1 (String c1 "") = String.append s2 (String c2 "") ->
  s1 = s2 /\ c1 = c2.
Proof.
  revert s2. induction s1 as [|a s1 IH]; intros [|b s2]; simpl; intros E.
  - injection E as ->. split; reflexivity.
  - injection E as _ E. destruct s2; discriminate.
  - injection E as _ E. destruct s1; discriminate.
  - injection E as -> E. destruct (IH _ E) as [-> ->]. split; reflexivity.
Qed.

Lemma hexDigit_inj (a b : Z) :
  0 <= a < 16 -> 0 <= b < 16 -> hexDigit a = hexDigit b -> a = b.
Proof.
  intros Ha Hb E.
  assert (En : Z.to_nat a = Z.to_nat b); [|lia].
  assert (Hna : (Z.to_nat a < 16)%nat) by lia.
  assert (Hnb : (Z.to_nat b < 16)%nat) by lia.
  unfold hexDigit in E.
  revert E Hna Hnb. generalize (Z.to_nat a), (Z.to_nat b). clear.
  intros na nb E Hna Hnb.
  do 16 (destruct na as [|na]; [
    do 16 (destruct nb as [|nb]; [first [reflexivity | discriminate E]|]); lia |]).
  lia.
Qed.

Lemma hexString_inj (digits : nat) (a b : Z) :
  0 <= a < 16 ^ Z.of_nat digits -> 0 <= b < 16 ^ Z.of_nat digits ->
  hexString digits a = hexString digits b -> a = b.
Proof.
  revert a b. induction digits as [|d IH]; intros a b Ha Hb E.
  - simpl in Ha, Hb. lia.
  - rewrite Nat2Z.inj_succ, Z.pow_succ_r in Ha, Hb by lia.
    simpl in E. apply append_last_inj in E as [E1 E2].
    assert (a / 16 = b / 16).
    { apply IH; [| |exact E1].
      - split; [apply Z.div_pos; lia | apply Z.div_lt_upper_bound; lia].
      - split; [apply Z.div_pos; lia | apply Z.div_lt_upper_bound; lia]. }
    assert (a mod 16 = b mod 16).
    { apply hexDigit_inj; [apply Z.mod_pos_bound; lia
                          | apply Z.mod_pos_bound; lia | exact E2]. }
    rewrite (Z.div_mod a 16), (Z.div_mod b 16) by lia. congruence.
Qed.

Lemma ecs_trace_fields_inj (t1 t2 s1 s2 : string) (b1 b2 : bool) :
  [zap_Object "trace"
     (ecsTrace_MarshalLogObject {| ecsTrace_ID := t1; ecsTrace_Sampled := b1 |});
   zap_Object "span" (ecsSpan_MarshalLogObject {| ecsSpan_ID := s1 |})]
  = [zap_Object "trace"
       (ecsTrace_MarshalLogObject {| ecsTrace_ID := t2; ecsTrace_Sampled := b2 |});
     zap_Object "span" (ecsSpan_MarshalLogObject {| ecsSpan_ID := s2 |})] ->
  t1 = t2 /\ b1 = b2 /\ s1 = s2.
Proof.
  unfold zap_Object, ecsTrace_MarshalLogObject, ecsSpan_MarshalLogObject. simpl.
  intros E. injection E as -> -> ->. repeat split.
Qed.

Lemma gcloud_trace_fields_inj (p t1 t2 s1 s2 : string) (b1 b2 : bool) :
  [("trace", StringValue
      (String.append "projects/" (String.append p (String.append "/traces/" t1))));
   ("spanId", StringValue s1); ("traceSampled", BoolValue b1)]
  = [("trace", StringValue
        (String.append "projects/" (String.append p (String.append "/traces/" t2))));
     ("spanId", StringValue s2); ("traceSampled", BoolValue b2)] ->
  t1 = t2 /\ b1 = b2 /\ s1 = s2.
Proof.
  intros E. injection E as E1 -> ->.
  do 3 apply append_inv_head in E1. repeat split. exact E1.
Qed.

(** X10. The trace fields of either schema formatter are made from the span
    context alone, whatever the request, and they tell span contexts apart:
    for identifiers within their byte widths, two span contexts get equal
    fields exactly when they agree in trace id, in span id and in the
    sampled flag. *)
Theorem trace_fields_determine_the_span (f : gcloudFormatter)
    (rq1 rq2 : Request) (sc1 sc2 : SpanContext) :
  0 <= TraceID sc1 < 2 ^ 128 -> 0 <= SpanID sc1 < 2 ^ 64 ->
  0 <= TraceID sc2 < 2 ^ 128 -> 0 <= SpanID sc2 < 2 ^ 64 ->
  let agree := TraceID sc1 = TraceID sc2 /\ SpanID sc1 = SpanID sc2
               /\ IsSampled sc1 = IsSampled sc2 in
  (GetTraceFields ElasticCommonSchemaFormatter rq1 sc1
     = GetTraceFields ElasticCommonSchemaFormatter rq2 sc2 <-> agree)
  /\ (GetTraceFields f rq1 sc1 = GetTraceFields f rq2 sc2 <-> agree).
Proof.
  intros Ht1 Hs1 Ht2 Hs2 agree.
  assert (Htid : TraceID_String sc1 = TraceID_String sc2 -> TraceID sc1 = TraceID sc2).
  { apply (hexString_inj 32); assumption. }
  assert (Hsid : SpanID_String sc1 = SpanID_String sc2 -> SpanID sc1 = SpanID sc2).
  { apply (hexString_inj 16); assumption. }
  assert (Hback : agree ->
            TraceID_String sc1 = TraceID_String sc2
            /\ SpanID_String sc1 = SpanID_String sc2).
  { intros (A & B & _). unfold TraceID_String, SpanID_String.
    rewrite A, B. split; reflexivity. }
  split; split.
  - intros E.
    destruct (ecs_trace_fields_inj (TraceID_String sc1) (TraceID_String sc2)
                (SpanID_String sc1) (SpanID_String sc2)
                (IsSampled sc1) (IsSampled sc2) E) as (A & B & C).
    repeat split; auto.
  - intros Hag. destruct (Hback Hag) as [A B]. destruct Hag as (_ & _ & C).
    cbn [GetTraceFields elasticCommonSchemaFormatter_TraceFormatter
         gcloudFormatter_TraceFormatter].
    rewrite A, B, C. reflexivity.
  - intros E.
    destruct (gcloud_trace_fields_inj (projectID f)
                (TraceID_String sc1) (TraceID_String sc2)
                (SpanID_String sc1) (SpanID_String sc2)
                (IsSampled sc1) (IsSampled sc2) E) as (A & B & C).
    repeat split; auto.
  - intros Hag. destruct (Hback Hag) as [A B]. destruct Hag as (_ & _ & C).
    cbn [GetTraceFields elasticCommonSchemaFormatter_TraceFormatter
         gcloudFormatter_TraceFormatter].
    rewrite A, B, C. reflexivity.
Qed.

(* ===================================================================== *)
(** ** The further theorems at concrete requests *)
(* ===================================================================== *)

Lemma silent_handler_is_logged_with_status_0_witness :
  neverWrites (headersOnly
    (hd_request (handleRequest NewNop (testHandler (NewLogger 1 InfoLevel) [])
                   NewRecorder testRequest headersOnly 0)))
  /\ ResponseInfo.StatusCode
       (completionInfo (handleRequest NewNop (testHandler (NewLogger 1 InfoLevel) [])
                          NewRecorder testRequest headersOnly 0)) = 0
  /\ rec_HeaderMap
       (Unwrap (hd_recorder (handleRequest NewNop
                               (testHandler (NewLogger 1 InfoLevel) [])
                               NewRecorder testRequest headersOnly 0)))
       !! "Content-Type" = Some ["application/json"].
Proof.
  assert (Hp : neverWrites (headersOnly
            (hd_request (handleRequest NewNop (testHandler (NewLogger 1 InfoLevel) [])
                           NewRecorder testRequest headersOnly 0))))
    by (simpl; intros l; exact I).
  split; [exact Hp|].
  destruct (silent_handler_is_logged_with_status_0 NewNop
              (testHandler (NewLogger 1 InfoLevel) []) NewRecorder testRequest
              headersOnly 0 Hp) as (_ & Hs & _).
  split; [exact Hs | reflexivity].
Defined.

Lemma FromContext_through_derived_contexts_witness :
  foreignKeys [(otherKey "user", OtherValue "alice");
               (currentSpanKey, SpanValue tracedSpan)] = true
  /\ FromContext NewNop
       ([(otherKey "user", OtherValue "alice");
         (currentSpanKey, SpanValue tracedSpan)]
        ++ RequestContext
             (hd_request (handleRequest NewNop (testHandler otherLogger [])
                            NewRecorder testRequest (writeHeaderOnly 200) 0)))
     = (hd_logger (handleRequest NewNop (testHandler otherLogger [])
                     NewRecorder testRequest (writeHeaderOnly 200) 0), []).
Proof.
  split; [reflexivity|].
  exact (proj2 (FromContext_through_derived_contexts NewNop
                  (testHandler otherLogger []) NewRecorder testRequest
                  (writeHeaderOnly 200) 0
                  [(otherKey "user", OtherValue "alice");
                   (currentSpanKey, SpanValue tracedSpan)] eq_refl)).
Defined.

Lemma default_constructor_renames_the_base_logger_witness :
  perRequestLoggerFn (options (testHandler otherLogger []))
    = DefaultPerRequestLoggerFunc
  /\ lg_name (hd_logger (handleRequest NewNop (testHandler otherLogger [])
                           NewRecorder tracedRequest (writeHeaderOnly 500) 0))
     = "request"
  /\ Forall (fun e => en_core e = 2%nat /\ en_logger e = "request")
       (writtenOf
          (hd_before (handleRequest NewNop (testHandler otherLogger [])
                        NewRecorder tracedRequest (writeHeaderOnly 500) 0)
           ++ hd_after (handleRequest NewNop (testHandler otherLogger [])
                          NewRecorder tracedRequest (writeHeaderOnly 500) 0))).
Proof.
  split; [reflexivity|].
  destruct (default_constructor_renames_the_base_logger NewNop
              (testHandler otherLogger []) NewRecorder tracedRequest
              (writeHeaderOnly 500) 0 eq_refl) as (_ & _ & Hn & Hall).
  split; [exact Hn | exact Hall].
Defined.

Lemma noop_formatters_add_nothing_witness :
  traceFormatter (options (testHandler otherLogger []))
    = asTraceFormatter NoopFormatter
  /\ requestFormatter (options (testHandler otherLogger []))
     = asRequestFormatter NoopFormatter
  /\ lg_context (hd_logger (handleRequest NewNop (testHandler otherLogger [])
                              NewRecorder tracedRequest (writeHeaderOnly 500) 0))
     = [("component", StringValue "api")].
Proof.
  split; [reflexivity|]. split; [reflexivity|].
  rewrite (proj1 (noop_formatters_add_nothing NewNop
                    (testHandler otherLogger []) NewRecorder tracedRequest
                    (writeHeaderOnly 500) 0 eq_refl eq_refl)).
  reflexivity.
Defined.

Lemma middleware_leaves_the_response_alone_witness :
  UnheadedWrite serverResponse
  /\ srv_status
       (Unwrap (hd_recorder (handleRequest NewNop
                               (testHandler (NewLogger 1 InfoLevel) [])
                               newServerResponse testRequest writeThenError 0)))
     = 200
  /\ srv_status
       (Unwrap (hd_recorder (handleRequest NewNop
                               (testHandler (NewLogger 1 InfoLevel) [])
                               sentServerResponse testRequest writeThenError 0)))
     = 404.
Proof.
  split; [exact serverResponse_UnheadedWrite|]. split.
  - rewrite (proj1 (middleware_leaves_the_response_alone NewNop
                      (testHandler (NewLogger 1 InfoLevel) []) newServerResponse
                      testRequest writeThenError 0)).
    reflexivity.
  - rewrite (proj1 (middleware_leaves_the_response_alone NewNop
                      (testHandler (NewLogger 1 InfoLevel) []) sentServerResponse
                      testRequest writeThenError 0)).
    reflexivity.
Defined.

Lemma trace_fields_determine_the_span_witness :
  (0 <= TraceID tracedSpan < 2 ^ 128 /\ 0 <= SpanID tracedSpan < 2 ^ 64)
  /\ GetTraceFields (NewGoogleCloudFormatter "test-project") tracedRequest tracedSpan
     = GetTraceFields (NewGoogleCloudFormatter "test-project") testRequest tracedSpan.
Proof.
  assert (Ht : 0 <= TraceID tracedSpan < 2 ^ 128) by (simpl; lia).
  assert (Hs : 0 <= SpanID tracedSpan < 2 ^ 64) by (simpl; lia).
  split; [split; assumption|].
  apply (proj2 (trace_fields_determine_the_span
                  (NewGoogleCloudFormatter "test-project")
                  tracedRequest testRequest tracedSpan tracedSpan Ht Hs Ht Hs)).
  repeat split.
Defined.

(** The fields both schema formatters make for the traced request. *)
Example schema_trace_fields :
  GetTraceFields ElasticCommonSchemaFormatter tracedRequest tracedSpan
  = [("trace", ObjectValue
        [("id", StringValue "00000000000000000000000c22384e5a");
         ("sampled", BoolValue true)]);
     ("span", ObjectValue [("id", StringValue "0000000000002b15")])]
  /\ GetTraceFields (NewGoogleCloudFormatter "test-project") tracedRequest tracedSpan
     = [("trace", StringValue
           "projects/test-project/traces/00000000000000000000000c22384e5a");
        ("spanId", StringValue "0000000000002b15");
        ("traceSampled", BoolValue true)].
Proof. split; reflexivity. Qed.

Section MiddlewareLevels.
Context {W : Type} `{ResponseWriter W}.
Variable zapL : Logger.
Variables (h : handler) (w : W) (req : Request) (next : Request -> Handler).
Variable now : Z.

Let r := handleRequest zapL h w req next now.

Lemma completionSeverity_below_DPanic (o : Outcome) (status : Z) :
  Level_value (completionSeverity o status) <= Level_value ErrorLevel.
Proof.
  unfold completionSeverity. rewrite completionTable_total.
  destruct o; simpl; try lia.
  destruct (status <=? 399); simpl; [lia|].
  destruct (status <=? 499); simpl; lia.
Qed.

(** X11. Whatever the handler does and whatever status it leaves, the
    middleware asks the filter and the logger only about debug, info,
    warning and error events, and writes lines at these levels only: never
    at one of the levels at which a logger panics or ends the process. *)
Theorem middleware_logs_below_DPanic :
  Forall (fun rl => Level_value (snd rl) <= Level_value ErrorLevel)
    (filteredOf (hd_events r))
  /\ Forall (fun lm => Level_value (fst lm) <= Level_value ErrorLevel)
       (checkedOf (hd_before r ++ hd_after r))
  /\ Forall (fun e => Level_value (en_level e) <= Level_value ErrorLevel)
       (writtenOf (hd_before r ++ hd_after r)).
Proof.
  destruct (handleRequest_parts zapL h w req next now)
    as (_ & _ & _ & _ & _ & _ & Hd & _).
  destruct (handleRequest_before zapL h w req next now) as (Hbf & Hbc & Hbw & _).
  pose proof (handleRequest_after zapL h w req next now) as Hafter.
  fold r in Hd, Hbf, Hbc, Hbw, Hafter.
  destruct (ServeHTTP_calls_no_callback zapL
              (next (injectLoggerInContext req (perRequestLogger h req)))
              (newStatusRecorder w) now) as (Hf & _ & _).
  pose proof (completionSeverity_below_DPanic (hd_outcome r)
                (StatusCode (hd_recorder r))) as Hsev.
  split; [|split].
  - unfold hd_events. rewrite !filteredOf_app, Hbf, Hd, Hf, Hafter.
    rewrite !logRequest_filteredOf. repeat constructor; simpl; [lia | exact Hsev].
  - rewrite checkedOf_app, Hbc, Hafter, !logRequest_checkedOf.
    apply Forall_app. split;
      match goal with
      | |- context [if ?b then _ else _] => destruct b
      end; repeat constructor; simpl; [lia | exact Hsev].
  - rewrite writtenOf_app, Hbw, Hafter, !logRequest_writtenOf.
    apply Forall_app. split;
      match goal with
      | |- context [if ?b then _ else _] => destruct b
      end; repeat constructor; simpl; [lia | exact Hsev].
Qed.
End MiddlewareLevels.
